(** * Crop & Soil Analytics Dashboard: derived metrics and session state

    A shallow embedding of the field-analysis pipeline of the dashboard
    ([getTextureClass], [getHealthScore], [getFertilizerPlan],
    [fetchAnalysisFromAzure], [handleAddressChange]) and of the parts of the
    JavaScript host they rest on.

    The repository holds two copies of the component: [src/App.jsx]
    (module [Legacy]) and a revised copy (module [Revised]) whose helpers
    carry the "FIX" comments.  Both are embedded; the event handlers, which
    are the same text in both, are embedded once (module [App]) over the
    helper that builds the published record.

    JavaScript numbers are IEEE 754 binary64 values: they are the kernel's
    primitive floats here, so every example evaluates as the engine does. *)

From Stdlib Require Import ZArith List String Ascii Bool Lia Sorted.
From Stdlib Require Import Floats.
From Stdlib Require Import DecimalString.
Import ListNotations.
Open Scope string_scope.

(** ** The JavaScript host *)

Module JS.

Definition number := float.

(** [ToBoolean] of a number: [+0], [-0] and [NaN] are falsy. *)
Definition ToBoolean (x : number) : bool := negb (is_zero x || is_nan x).

(** A property read [o.p] is [None] when the property is absent
    ([undefined]).  [!v]: *)
Definition not (v : option number) : bool :=
  match v with
  | Some x => negb (ToBoolean x)
  | None => true
  end.

(** [v || d], for a numeric default [d]. *)
Definition or_default (v : option number) (d : number) : number :=
  match v with
  | Some x => if ToBoolean x then x else d
  | None => d
  end.

(** Relational operators with a possibly [undefined] left operand:
    [undefined] converts to [NaN] and every comparison with it is false. *)
Definition lt (v : option number) (c : number) : bool :=
  match v with
  | Some x => (x <? c)%float
  | None => false
  end.

Definition gt (v : option number) (c : number) : bool :=
  match v with
  | Some x => (c <? x)%float
  | None => false
  end.

Definition ge (v : option number) (c : number) : bool :=
  match v with
  | Some x => (c <=? x)%float
  | None => false
  end.

(** [Math.max(x, y)]: [NaN] if either is, and [+0] above [-0]. *)
Definition Math_max (x y : number) : number :=
  if is_nan x || is_nan y then nan
  else if (x <? y)%float then y
  else if (y <? x)%float then x
  else match classify x with
       | NZero => y
       | _ => x
       end.

Arguments or_default v d%_float.
Arguments lt v c%_float.
Arguments gt v c%_float.
Arguments ge v c%_float.
Arguments Math_max (x y)%_float.

(** *** [Number.prototype.toFixed] *)

Definition digits (n : Z) : string :=
  NilZero.string_of_uint (N.to_uint (Z.to_N n)).

Fixpoint zeros (k : nat) : string :=
  match k with
  | O => ""
  | S k' => "0" ++ zeros k'
  end.

(** The integer [n] for which [n / 10^f - x] is as close to zero as
    possible, the larger one on a tie, for [x = m * 2^e]. *)
Definition scaled_round (m : positive) (e : Z) (f : nat) : Z :=
  let p := (Zpos m * 10 ^ Z.of_nat f)%Z in
  if (0 <=? e)%Z then (p * 2 ^ e)%Z
  else ((2 * p + 2 ^ (- e)) / 2 ^ (1 - e))%Z.

(** The digits of [n] with a decimal point before the last [f] of them. *)
Definition fixed_digits (n : Z) (f : nat) : string :=
  let ds := digits n in
  match f with
  | O => ds
  | _ =>
      let k := String.length ds in
      let ds' := if (k <=? f)%nat then zeros (f + 1 - k) ++ ds else ds in
      let k' := String.length ds' in
      substring 0 (k' - f) ds' ++ "." ++ substring (k' - f) f ds'
  end.

(** [Number::toString] for a finite [x = m * 2^e >= 10^21]: the shortest
    decimal [s * 10^(n-k)] that reads back as [x], in exponent form.  Such
    an [x] is an integer, and so is every candidate. *)
Definition rounds_to (m : positive) (e : Z) (v : Z) : bool :=
  let x := (Zpos m * 2 ^ e)%Z in
  let up := (2 ^ (e - 1))%Z in
  let down := (if (Zpos m =? 2 ^ 52)%Z then 2 ^ (e - 2) else 2 ^ (e - 1))%Z in
  if Z.even (Zpos m)
  then ((x - down <=? v) && (v <=? x + up))%Z
  else ((x - down <? v) && (v <? x + up))%Z.

Definition candidate (m : positive) (e : Z) (k n : Z) : option Z :=
  let x := (Zpos m * 2 ^ e)%Z in
  let sc := (10 ^ (n - k))%Z in
  let s0 := (x / sc)%Z in
  let ok s := ((10 ^ (k - 1) <=? s) && (s <? 10 ^ k))%Z && rounds_to m e (s * sc) in
  match ok s0, ok (s0 + 1)%Z with
  | true, true =>
      let d0 := (x - s0 * sc)%Z in
      let d1 := ((s0 + 1) * sc - x)%Z in
      if (d0 <? d1)%Z then Some s0
      else if (d1 <? d0)%Z then Some (s0 + 1)%Z
      else if Z.even s0 then Some s0 else Some (s0 + 1)%Z
  | true, false => Some s0
  | false, true => Some (s0 + 1)%Z
  | false, false => None
  end.

Fixpoint shortest (fuel : nat) (m : positive) (e : Z) (k n : Z) : Z * Z * Z :=
  match fuel with
  | O => ((Zpos m * 2 ^ e)%Z, n, n)
  | S fuel' =>
      match candidate m e k n with
      | Some s => (s, k, n)
      | None =>
          match candidate m e k (n + 1) with
          | Some s => (s, k, (n + 1)%Z)
          | None => shortest fuel' m e (k + 1) n
          end
      end
  end.

Definition toString_large (m : positive) (e : Z) : string :=
  let n0 := Z.of_nat (String.length (digits (Zpos m * 2 ^ e))) in
  let '(s, k, n) := shortest 17 m e 1 n0 in
  let ds := digits s in
  (if (k =? 1)%Z then ds
   else substring 0 1 ds ++ "." ++ substring 1 (String.length ds - 1) ds)
  ++ "e+" ++ digits (n - 1).

(** [x.toFixed(f)] for [0 <= f <= 100]. *)
Definition toFixed (x : number) (f : nat) : string :=
  match Prim2SF x with
  | S754_nan => "NaN"
  | S754_infinity s => if s then "-Infinity" else "Infinity"
  | S754_zero _ => fixed_digits 0 f
  | S754_finite s m e =>
      (if s then "-" else "")
      ++ (if (abs x <? 1e21)%float
          then fixed_digits (scaled_round m e f) f
          else toString_large m e)
  end.

Arguments toFixed x%_float f%_nat.

(** *** Strings *)

Definition lower_ascii (c : ascii) : ascii :=
  let n := nat_of_ascii c in
  if ((65 <=? n) && (n <=? 90))%nat then ascii_of_nat (n + 32) else c.

(** [s.toLowerCase()], on the ASCII letters. *)
Fixpoint toLowerCase (s : string) : string :=
  match s with
  | EmptyString => EmptyString
  | String c s' => String (lower_ascii c) (toLowerCase s')
  end.

(** [s.startsWith(p)]. *)
Definition startsWith (s p : string) : bool := prefix p s.

End JS.

(** ** The data model *)

(** A soil sample as the analysis endpoint sends it,
    [{ph, soc, nitrogen, sand, silt, clay}]: every field is a number or
    absent ([None] is [undefined]).  A number of a JSON body is finite or,
    for a literal out of range, an infinity; the functions below are defined
    on every binary64 value all the same. *)
Record Soil := mkSoil {
  ph : option JS.number;
  soc : option JS.number;
  nitrogen : option JS.number;
  sand : option JS.number;
  silt : option JS.number;
  clay : option JS.number
}.

Record Issue := mkIssue {
  issue_message : string;
  severity : string
}.

Record Strength := mkStrength {
  strength_message : string
}.

Record HealthData := mkHealth {
  score : JS.number;
  issues : list Issue;
  strengths : list Strength
}.

Record FertilizerItem := mkFertilizer {
  nutrient : string;
  priority : string;
  amount : string;
  fertilizer : string;
  current : string;
  target : string;
  timing : string
}.

(** The properties of the clicked map feature. *)
Record Props := mkProps {
  CROP_TYPE : option Z;
  CNTY : option string;
  CSBACRES : option JS.number
}.

Record HistoryEntry := mkEntry {
  crop : string;
  code : option Z;
  acres : option JS.number
}.

(** The [history] object, keyed by year.  The order of the keys is not the
    engine's; the timeline sorts the entries itself. *)
Definition History := list (Z * HistoryEntry).

(** [history[year] = entry]: the entry of that year is overwritten, or the
    key is added. *)
Fixpoint set_year (year : Z) (entry : HistoryEntry) (h : History) : History :=
  match h with
  | [] => [(year, entry)]
  | (y, e) :: h' =>
      if (y =? year)%Z then (year, entry) :: h'
      else (y, e) :: set_year year entry h'
  end.

Fixpoint get_year (year : Z) (h : History) : option HistoryEntry :=
  match h with
  | [] => None
  | (y, e) :: h' => if (y =? year)%Z then Some e else get_year year h'
  end.

Record Recommendation := mkRecommendation {
  rec_name : string;
  rec_reason : option string;
  rec_score : JS.number
}.

(** The body of a successful analysis response. *)
Record AnalysisData := mkData {
  data_soil : option Soil;
  data_history : option History;
  data_recommendations : option (list Recommendation)
}.

(** The record [fetchAnalysisFromAzure] publishes with [setFieldData]. *)
Record FieldData := mkFieldData {
  cropName : string;
  county : option string;
  field_acres : option JS.number;
  history : History;
  soil : option Soil;
  recommendations : list Recommendation;
  texture : string;
  healthData : option HealthData;
  fertilizerPlan : list FertilizerItem;
  location : JS.number * JS.number
}.

Definition CURRENT_YEAR : Z := 2022.

(** The two recommendations [getFertilizerPlan] can push; [cur] is the
    formatted observed value. *)
Definition nitrogen_item (cur : string) : FertilizerItem :=
  {| nutrient := "Nitrogen (N)"; priority := "HIGH"; amount := "80-100 lbs/ac";
     fertilizer := "Urea (46-0-0)"; current := cur;
     target := "3.5"; timing := "Split application at planting" |}.

Definition ph_item (cur : string) : FertilizerItem :=
  {| nutrient := "pH Adjustment"; priority := "HIGH"; amount := "2-3 tons/ac";
     fertilizer := "Ag Limestone"; current := cur;
     target := "6.5"; timing := "Fall application" |}.

Definition acidic_issue (p : JS.number) : Issue :=
  {| issue_message := "Acidic Soil (pH " ++ JS.toFixed p 1 ++ ")"; severity := "medium" |}.

Definition alkaline_issue (p : JS.number) : Issue :=
  {| issue_message := "Alkaline Soil (pH " ++ JS.toFixed p 1 ++ ")"; severity := "medium" |}.

Definition low_organic_issue : Issue :=
  {| issue_message := "Low organic matter"; severity := "high" |}.

Definition low_nitrogen_issue : Issue :=
  {| issue_message := "Low Nitrogen"; severity := "medium" |}.

Definition ph_strength : Strength := {| strength_message := "pH is in optimal range" |}.

Definition organic_strength : Strength := {| strength_message := "Good organic matter" |}.

(** The running state of [getHealthScore]'s body: [score], [issues],
    [strengths]. *)
Definition Tally := (JS.number * list Issue * list Strength)%type.

Definition deduct (d : JS.number) (i : Issue) (t : Tally) : Tally :=
  let '(sc, iss, sts) := t in ((sc - d)%float, (iss ++ [i])%list, sts).

Arguments deduct d%_float i t.

Definition credit (s : Strength) (t : Tally) : Tally :=
  let '(sc, iss, sts) := t in (sc, iss, (sts ++ [s])%list).

Definition close_tally (t : Tally) : HealthData :=
  let '(sc, iss, sts) := t in
  {| score := JS.Math_max 0 sc; issues := iss; strengths := sts |}.

(** The three checks of [getHealthScore], on the value each compares: the
    field as read in [src/App.jsx], the defaulted number in the revised
    copy.  A comparison with [undefined] is false. *)
Definition check_ph (v : option JS.number) (t : Tally) : Tally :=
  match v with
  | Some p =>
      if (p <? 6.0)%float then deduct 15 (acidic_issue p) t
      else if (7.5 <? p)%float then deduct 15 (alkaline_issue p) t
      else credit ph_strength t
  | None => credit ph_strength t
  end.

Definition check_soc (v : option JS.number) (t : Tally) : Tally :=
  if JS.lt v 15 then deduct 20 low_organic_issue t
  else credit organic_strength t.

Definition check_nitrogen (v : option JS.number) (t : Tally) : Tally :=
  if JS.lt v 2.0 then deduct 15 low_nitrogen_issue t else t.

(** The first push of [getFertilizerPlan]: the nitrogen recommendation,
    with [toFixed(2)]. *)
Definition push_nitrogen (v : option JS.number) (plan : list FertilizerItem) : list FertilizerItem :=
  match v with
  | Some n => if (n <? 2.0)%float then (plan ++ [nitrogen_item (JS.toFixed n 2)])%list else plan
  | None => plan
  end.

(** ** [src/App.jsx] *)

Module Legacy.

(** Lines 52-57. *)
Definition getTextureClass (sand clay : option JS.number) : string :=
  if JS.not sand || JS.not clay then "Unknown"
  else if JS.ge clay 40 then "Clay"
  else if JS.gt sand 45 then "Sandy Loam"
  else "Loam".

(** Lines 59-70: [score], [issues] and [strengths] before the [return]. *)
Definition tally (soil : Soil) : Tally :=
  let t := (100%float, [], []) in
  let t := check_ph (ph soil) t in
  let t := check_soc (soc soil) t in
  let t := check_nitrogen (nitrogen soil) t in
  t.

Definition getHealthScore (soil : option Soil) : option HealthData :=
  match soil with
  | None => Some {| score := 0%float; issues := []; strengths := [] |}
  | Some soil => Some (close_tally (tally soil))
  end.

(** Lines 72-78. *)
Definition getFertilizerPlan (soil : option Soil) : list FertilizerItem :=
  match soil with
  | None => []
  | Some soil =>
      let plan := [] in
      let plan := push_nitrogen (nitrogen soil) plan in
      let plan :=
        match ph soil with
        | Some p => if (p <? 6.0)%float then (plan ++ [ph_item (JS.toFixed p 1)])%list else plan
        | None => plan
        end in
      plan
  end.

(** Lines 160-168: the argument of [setFieldData] in
    [fetchAnalysisFromAzure]; the soil is passed on as received. *)
Definition publish (lat lon : JS.number) (name : string) (currentProps : Props)
    (data : AnalysisData) : FieldData :=
  let history := match data_history data with Some h => h | None => [] end in
  let history :=
    set_year CURRENT_YEAR
      {| crop := name; code := CROP_TYPE currentProps; acres := CSBACRES currentProps |}
      history in
  {| cropName := name;
     county := CNTY currentProps;
     field_acres := CSBACRES currentProps;
     history := history;
     soil := data_soil data;
     recommendations := match data_recommendations data with Some r => r | None => [] end;
     texture := getTextureClass (match data_soil data with Some s => sand s | None => None end)
                                (match data_soil data with Some s => clay s | None => None end);
     healthData := getHealthScore (data_soil data);
     fertilizerPlan := getFertilizerPlan (data_soil data);
     location := (lat, lon) |}.

End Legacy.

(** ** The revised copy *)

Module Revised.

(** Lines 52-59. *)
Definition getTextureClass (sand clay : option JS.number) : string :=
  let s := JS.or_default sand 0 in
  let c := JS.or_default clay 0 in
  if (s + c =? 0)%float then "Unknown"
  else if (40 <=? c)%float then "Clay"
  else if (45 <? s)%float then "Sandy Loam"
  else "Loam".

(** Lines 61-101 ("FIX: Robust Health Score"): [score], [issues] and
    [strengths] before the [return]. *)
Definition tally (soil : Soil) : Tally :=
  let ph := JS.or_default (ph soil) 6.5 in
  let soc := JS.or_default (soc soil) 20 in
  let nitrogen := JS.or_default (nitrogen soil) 2.5 in
  let t := (100%float, [], []) in
  let t := check_ph (Some ph) t in
  let t := check_soc (Some soc) t in
  let t := check_nitrogen (Some nitrogen) t in
  t.

Definition getHealthScore (soil : option Soil) : option HealthData :=
  match soil with
  | None => None
  | Some soil => Some (close_tally (tally soil))
  end.

(** Lines 103-122. *)
Definition getFertilizerPlan (soil : option Soil) : list FertilizerItem :=
  match soil with
  | None => []
  | Some soil =>
      let plan := [] in
      let ph := JS.or_default (ph soil) 6.5 in
      let nitrogen := JS.or_default (nitrogen soil) 2.5 in
      let plan := push_nitrogen (Some nitrogen) plan in
      let plan :=
        if (ph <? 6.0)%float && (0 <? ph)%float
        then (plan ++ [ph_item (JS.toFixed ph 1)])%list else plan in
      plan
  end.

Definition default_soil : Soil :=
  {| ph := Some 6.5%float; soc := Some 20%float; nitrogen := Some 2.5%float;
     sand := Some 35%float; silt := None; clay := Some 25%float |}.

(** Lines 298-304, the normalization of [data.soil] in
    [fetchAnalysisFromAzure]: the default object for a missing one ("FIX:
    Ensure soil object exists"), then the silt completion ("FIX: Silt
    Calculation"). *)
Definition normalize (data_soil : option Soil) : Soil :=
  let soil := match data_soil with Some s => s | None => default_soil end in
  match silt soil with
  | None =>
      {| ph := ph soil; soc := soc soil; nitrogen := nitrogen soil;
         sand := sand soil;
         silt := Some (JS.Math_max 0
                         (100 - JS.or_default (sand soil) 0 - JS.or_default (clay soil) 0));
         clay := clay soil |}
  | Some _ => soil
  end.

(** Lines 295-317: the argument of [setFieldData] in
    [fetchAnalysisFromAzure]. *)
Definition publish (lat lon : JS.number) (name : string) (currentProps : Props)
    (data : AnalysisData) : FieldData :=
  let history := match data_history data with Some h => h | None => [] end in
  let history :=
    set_year CURRENT_YEAR
      {| crop := name; code := CROP_TYPE currentProps; acres := CSBACRES currentProps |}
      history in
  let soil := normalize (data_soil data) in
  {| cropName := name;
     county := CNTY currentProps;
     field_acres := CSBACRES currentProps;
     history := history;
     soil := Some soil;
     recommendations := match data_recommendations data with Some r => r | None => [] end;
     texture := getTextureClass (sand soil) (clay soil);
     healthData := getHealthScore (Some soil);
     fertilizerPlan := getFertilizerPlan (Some soil);
     location := (lat, lon) |}.

End Revised.

(** ** The component: state, handlers and the event loop *)

Module App.

(** An entry of the geocoder's response. *)
Record Item := mkItem {
  display_name : option string;
  lat : string;
  lon : string
}.

Record Suggestion := mkSuggestion {
  item : Item;
  rankScore : Z
}.

(** What the geocoder's response parses to. *)
Inductive SearchBody :=
| NotArray
| Items (l : list Item).

(** A geocoder fetch settles: rejected (or its body is no JSON), or parsed. *)
Inductive SearchOutcome :=
| SearchRejected
| SearchJson (body : SearchBody).

(** How an analysis fetch can fail inside the [try] block. *)
Inductive Failure :=
| NetworkError
| HttpError (statusText : string)
| MalformedBody.

(** An analysis fetch settles. *)
Inductive AnalysisOutcome :=
| Failed (f : Failure)
| Ok (data : AnalysisData).

(** A request as it goes out. *)
Inductive Request :=
| SearchRequest (q : string)
| AnalysisRequest (lat lon : JS.number).

(** The arguments [fetchAnalysisFromAzure] was called with. *)
Record Click := mkClick {
  click_lat : JS.number;
  click_lon : JS.number;
  click_crop : string;
  click_props : Props
}.

(** The component's state and refs, and the host's: pending timers,
    requests in flight, the requests sent so far and the alerts shown.  A
    timer's id is positive, as [setTimeout]'s is, so a stored id is truthy;
    a request carries the id of the call that sent it. *)
Record State := mkState {
  address : string;
  suggestions : list Suggestion;
  showSuggestions : bool;
  isSearching : bool;
  showAnalytics : bool;
  isMobileMenuOpen : bool;
  fieldData : option FieldData;
  loading : bool;
  searchTimeout : option nat;
  timers : list (nat * string);
  next_id : nat;
  searches : list (nat * string);
  analyses : list (nat * Click);
  network : list Request;
  alerts : list string
}.

Definition initial : State :=
  {| address := ""; suggestions := []; showSuggestions := false;
     isSearching := false; showAnalytics := false; isMobileMenuOpen := false;
     fieldData := None; loading := false; searchTimeout := None;
     timers := []; next_id := 1; searches := []; analyses := [];
     network := []; alerts := [] |}.

(** The handlers that call [fetchAnalysisFromAzure] are created once
    ([useCallback] with no dependencies), so the [isMobile] it reads is the
    first render's. *)
Definition isMobile : bool := false.

(** [clearTimeout(id)], and the end of a request: entries are keyed by id;
    an id that is not there changes nothing. *)
Fixpoint remove_id {A} (id : nat) (l : list (nat * A)) : list (nat * A) :=
  match l with
  | [] => []
  | (i, a) :: l' => if (i =? id)%nat then remove_id id l' else (i, a) :: remove_id id l'
  end.

(** The entry of an id, if it is still pending or in flight. *)
Fixpoint find_id {A} (id : nat) (l : list (nat * A)) : option A :=
  match l with
  | [] => None
  | (i, a) :: l' => if (i =? id)%nat then Some a else find_id id l'
  end.

(** *** Ranking *)

(** The [map] callback; it throws on an entry without [display_name]. *)
Definition rank_item (val : string) (it : Item) : option Suggestion :=
  match display_name it with
  | Some name =>
      let score := 0%Z in
      let score :=
        if JS.startsWith (JS.toLowerCase name) (JS.toLowerCase val)
        then (score + 100)%Z else score in
      Some {| item := it; rankScore := score |}
  | None => None
  end.

Fixpoint map_rank (val : string) (l : list Item) : option (list Suggestion) :=
  match l with
  | [] => Some []
  | it :: l' =>
      match rank_item val it, map_rank val l' with
      | Some s, Some r => Some (s :: r)
      | _, _ => None
      end
  end.

(** [sort((a, b) => b.rankScore - a.rankScore)]: descending and stable. *)
Fixpoint insert_desc (x : Suggestion) (l : list Suggestion) : list Suggestion :=
  match l with
  | [] => [x]
  | y :: l' =>
      if (rankScore x <? rankScore y)%Z then y :: insert_desc x l'
      else x :: y :: l'
  end.

Definition sort_desc (l : list Suggestion) : list Suggestion :=
  fold_right insert_desc [] l.

(** The value of [ranked], or [None] when the callback throws. *)
Definition ranked (val : string) (body : SearchBody) : option (list Suggestion) :=
  match body with
  | NotArray => Some []
  | Items l =>
      match map_rank val l with
      | Some r => Some (firstn 5 (sort_desc r))
      | None => None
      end
  end.

(** What the dropdown renders. *)
Definition visible_suggestions (st : State) : list Suggestion :=
  if showSuggestions st then suggestions st else [].

(** *** State updates *)

Definition with_search (st : State) (addr : string) (sugs : list Suggestion)
    (showS searching : bool) (ref : option nat) (tm : list (nat * string))
    (nid : nat) (sr : list (nat * string)) (net : list Request) : State :=
  {| address := addr; suggestions := sugs; showSuggestions := showS;
     isSearching := searching; showAnalytics := showAnalytics st;
     isMobileMenuOpen := isMobileMenuOpen st; fieldData := fieldData st;
     loading := loading st; searchTimeout := ref; timers := tm;
     next_id := nid; searches := sr; analyses := analyses st;
     network := net; alerts := alerts st |}.

Definition with_analysis (st : State) (analytics menu : bool)
    (fd : option FieldData) (ld : bool) (nid : nat)
    (an : list (nat * Click)) (net : list Request) (al : list string) : State :=
  {| address := address st; suggestions := suggestions st;
     showSuggestions := showSuggestions st; isSearching := isSearching st;
     showAnalytics := analytics; isMobileMenuOpen := menu; fieldData := fd;
     loading := ld; searchTimeout := searchTimeout st; timers := timers st;
     next_id := nid; searches := searches st; analyses := an;
     network := net; alerts := al |}.

(** *** [handleAddressChange] *)

Definition handleAddressChange (val : string) (st : State) : State :=
  if (String.length val <? 3)%nat then
    with_search st val (suggestions st) false (isSearching st)
      (searchTimeout st) (timers st) (next_id st) (searches st) (network st)
  else
    let tm :=
      match searchTimeout st with
      | Some id => if (id =? 0)%nat then timers st else remove_id id (timers st)
      | None => timers st
      end in
    let id := next_id st in
    with_search st val (suggestions st) (showSuggestions st) true
      (Some id) (tm ++ [(id, val)])%list (S id) (searches st) (network st).

(** The timer's callback up to its [await fetch]: the request goes out. *)
Definition timer_fires (id : nat) (st : State) : State :=
  match find_id id (timers st) with
  | None => st
  | Some val =>
      with_search st (address st) (suggestions st) (showSuggestions st)
        (isSearching st) (searchTimeout st) (remove_id id (timers st))
        (next_id st) (searches st ++ [(id, val)])%list
        (network st ++ [SearchRequest val])%list
  end.

(** The rest of the callback, once the fetch has settled. *)
Definition search_settles (id : nat) (r : SearchOutcome) (st : State) : State :=
  match find_id id (searches st) with
  | None => st
  | Some val =>
      let sr := remove_id id (searches st) in
      let done :=
        match r with
        | SearchJson body => ranked val body
        | SearchRejected => None
        end in
      match done with
      | Some rk =>
          with_search st (address st) rk (0 <? List.length rk)%nat false
            (searchTimeout st) (timers st) (next_id st) sr (network st)
      | None =>
          with_search st (address st) [] (showSuggestions st) false
            (searchTimeout st) (timers st) (next_id st) sr (network st)
      end
  end.

Section WithPublish.

(** The record built from a response: [Legacy.publish] or
    [Revised.publish]. *)
Variable publish : JS.number -> JS.number -> string -> Props -> AnalysisData -> FieldData.

(** *** [fetchAnalysisFromAzure] *)

(** Up to its [await fetch]. *)
Definition fetchAnalysisFromAzure (c : Click) (st : State) : State :=
  let id := next_id st in
  with_analysis st true
    (if isMobile then false else isMobileMenuOpen st)
    (fieldData st) true (S id)
    (analyses st ++ [(id, c)])%list
    (network st ++ [AnalysisRequest (click_lat c) (click_lon c)])%list
    (alerts st).

(** The rest of it, once the fetch has settled: [try], [catch],
    [finally]. *)
Definition analysis_settles (id : nat) (r : AnalysisOutcome) (st : State) : State :=
  match find_id id (analyses st) with
  | None => st
  | Some c =>
      let an := remove_id id (analyses st) in
      match r with
      | Ok data =>
          with_analysis st (showAnalytics st) (isMobileMenuOpen st)
            (Some (publish (click_lat c) (click_lon c) (click_crop c) (click_props c) data))
            false (next_id st) an (network st) (alerts st)
      | Failed _ =>
          with_analysis st (showAnalytics st) (isMobileMenuOpen st)
            (fieldData st) false (next_id st) an (network st)
            (alerts st ++ ["Analysis failed."])%list
      end
  end.

(** *** The event loop *)

Inductive Event :=
| AddressInput (val : string)
| TimerFires (id : nat)
| SearchSettles (id : nat) (r : SearchOutcome)
| AnalyzeClick (c : Click)
| AnalysisSettles (id : nat) (r : AnalysisOutcome).

Definition step (st : State) (ev : Event) : State :=
  match ev with
  | AddressInput val => handleAddressChange val st
  | TimerFires id => timer_fires id st
  | SearchSettles id r => search_settles id r st
  | AnalyzeClick c => fetchAnalysisFromAzure c st
  | AnalysisSettles id r => analysis_settles id r st
  end.

Definition run (st : State) (evs : list Event) : State :=
  fold_left step evs st.

End WithPublish.

End App.

(** ** What the component renders and the rest of its handlers *)

(** *** Helpers of the view *)

Module View.

(** A property read [table[key]] of an object literal. *)
Fixpoint assoc (k : Z) (table : list (Z * string)) : option string :=
  match table with
  | [] => None
  | (k', v) :: table' => if (k' =? k)%Z then Some v else assoc k table'
  end.

(** [s || d] for a string or [undefined]: the empty string is falsy. *)
Definition or_string (s : option string) (d : string) : string :=
  match s with
  | Some EmptyString => d
  | Some s' => s'
  | None => d
  end.

(** [CROP_LOOKUP[props.CROP_TYPE] || "Unknown"] in [handleMapClick]. *)
Definition cropName_of (table : list (Z * string)) (props : Props) : string :=
  or_string (match CROP_TYPE props with
             | Some c => assoc c table
             | None => None
             end) "Unknown".

(** [props.CSBACRES ? parseFloat(props.CSBACRES).toFixed(2) : "N/A"] in
    [handleMapClick].  [parseFloat] of a truthy number reads its own
    decimal form back, which is the number. *)
Definition acres_label (props : Props) : string :=
  match CSBACRES props with
  | Some x => if JS.ToBoolean x then JS.toFixed x 2 else "N/A"
  | None => "N/A"
  end.

(** [s.split(',')]: the pieces between the commas, at least one. *)
Fixpoint split_comma (s : string) : list string :=
  match s with
  | EmptyString => [EmptyString]
  | String c s' =>
      if Ascii.eqb c "," then EmptyString :: split_comma s'
      else match split_comma s' with
           | [] => [String c EmptyString]
           | p :: ps => String c p :: ps
           end
  end.

(** [l.join(',')]. *)
Fixpoint join_comma (l : list string) : string :=
  match l with
  | [] => EmptyString
  | [p] => p
  | p :: l' => p ++ "," ++ join_comma l'
  end.

(** [l.slice(1, 3)]. *)
Definition slice_1_3 {A} (l : list A) : list A := firstn 2 (skipn 1 l).

(** The two lines of a suggestion in the dropdown, and the text
    [selectSuggestion] puts in the input:
    [display_name.split(',')[0]] and
    [display_name.split(',').slice(1, 3).join(',')]. *)
Definition primary_label (name : string) : string :=
  match split_comma name with
  | p :: _ => p
  | [] => EmptyString
  end.

Definition secondary_label (name : string) : string :=
  join_comma (slice_1_3 (split_comma name)).

(** The label in the health circle:
    [score > 75 ? 'Excellent' : score > 50 ? 'Fair' : 'Poor']. *)
Definition health_label (score : JS.number) : string :=
  if (75 <? score)%float then "Excellent"
  else if (50 <? score)%float then "Fair"
  else "Poor".

(** The health card: the score with no decimals, the label, the strengths
    and the issues.  Both conditions, [fieldData.healthData] and
    [fieldData.healthData && fieldData.healthData.score != null], hold of
    every assessment, whose score is a number. *)
Record HealthCard := mkHealthCard {
  card_score : string;
  card_label : string;
  card_strengths : list string;
  card_issues : list string
}.

Definition health_card (fd : FieldData) : option HealthCard :=
  match healthData fd with
  | Some h =>
      Some {| card_score := JS.toFixed (score h) 0;
              card_label := health_label (score h);
              card_strengths := map strength_message (strengths h);
              card_issues := map issue_message (issues h) |}
  | None => None
  end.

(** [x.toFixed(f)] of a property that may be absent: a [TypeError] ([None])
    when it is. *)
Definition toFixed_of (v : option JS.number) (f : nat) : option string :=
  match v with
  | Some x => Some (JS.toFixed x f)
  | None => None
  end.

(** A row of the crop rotation timeline. *)
Record TimelineRow := mkRow {
  row_year : Z;
  row_crop : string;
  row_color : string;
  row_acres : option string
}.

(** [sort(([a], [b]) => parseInt(b) - parseInt(a))] on the entries. *)
Fixpoint insert_year (x : Z * HistoryEntry) (l : list (Z * HistoryEntry))
    : list (Z * HistoryEntry) :=
  match l with
  | [] => [x]
  | y :: l' =>
      if (fst x <? fst y)%Z then y :: insert_year x l'
      else x :: y :: l'
  end.

Definition sort_years (h : History) : list (Z * HistoryEntry) :=
  fold_right insert_year [] h.

(** The rows of the timeline: the color is [cropColors[info.code] ||
    '#e5e7eb']; the acres are [info.acres && <span>...</span>], which is the
    span with [parseFloat(info.acres).toFixed(0)] for a truthy number, the
    number itself, rendered as text, for [0] and [NaN], and nothing for an
    absent one. *)
Definition timeline_row (colors : list (Z * string)) (ye : Z * HistoryEntry) : TimelineRow :=
  let '(year, info) := ye in
  {| row_year := year;
     row_crop := crop info;
     row_color := or_string (match code info with
                             | Some c => assoc c colors
                             | None => None
                             end) "#e5e7eb";
     row_acres := match acres info with
                  | Some x =>
                      if JS.ToBoolean x then Some (JS.toFixed x 0 ++ " ac")
                      else Some (if is_nan x then "NaN" else "0")
                  | None => None
                  end |}.

Definition timeline (colors : list (Z * string)) (fd : FieldData) : list TimelineRow :=
  map (timeline_row colors) (sort_years (history fd)).

(** The legend: a name, [CROP_LOOKUP[code]], for every entry of
    [cropColors]; [None] is a blank label.  The rows are taken in the order
    of the table as written; the engine lists the keys in ascending order. *)
Definition legend (lookup colors : list (Z * string)) : list (string * option string) :=
  map (fun kc => (snd kc, assoc (fst kc) lookup)) colors.

End View.

(** *** [src/App.jsx]: tables and soil card *)

Module LegacyView.

(** Lines 101-121. *)
Definition CROP_LOOKUP : list (Z * string) :=
  [(1, "Corn"); (4, "Sorghum"); (5, "Soybeans");
   (24, "Winter Wheat"); (36, "Alfalfa"); (43, "Potatoes");
   (61, "Fallow"); (176, "Grassland"); (204, "Pistachios");
   (212, "Oranges"); (75, "Almonds"); (66, "Cherries");
   (67, "Peaches"); (68, "Apples"); (69, "Grapes");
   (76, "Walnuts"); (77, "Pears"); (223, "Apricots")]%Z.

(** Lines 124-141. *)
Definition cropColors : list (Z * string) :=
  [(1, "#F4D03F"); (5, "#229954"); (24, "#A04000"); (36, "#2ECC71");
   (176, "#CDDC39"); (43, "#FFCC80"); (75, "#D7CCC8"); (61, "#BDBDBD");
   (66, "#C2185B"); (67, "#FFAB91"); (68, "#D32F2F"); (69, "#7B1FA2");
   (76, "#795548"); (77, "#AED581"); (223, "#FFCA28")]%Z.

(** Lines 406-442, the soil composition card: the texts of the three legend
    items and the three metrics.  Each is a [toFixed] on the field as
    received, so the render throws ([None]) when one is absent.  The pie
    slices, which are arithmetic on the same fields, throw nothing. *)
Definition soil_card (s : Soil) : option (list string) :=
  match View.toFixed_of (sand s) 1, View.toFixed_of (silt s) 1, View.toFixed_of (clay s) 1,
        View.toFixed_of (ph s) 1, View.toFixed_of (soc s) 1, View.toFixed_of (nitrogen s) 2 with
  | Some sa, Some si, Some cl, Some p, Some c, Some n =>
      Some ["Sand: " ++ sa ++ "%"; "Silt: " ++ si ++ "%"; "Clay: " ++ cl ++ "%";
            p; c ++ " g/kg"; n ++ " g/kg"]
  | _, _, _, _, _, _ => None
  end.

(** The cards of the drawer for a published record: [None] when the render
    throws. *)
Definition drawer_soil (fd : FieldData) : option (option (list string)) :=
  match soil fd with
  | Some s =>
      match soil_card s with
      | Some texts => Some (Some texts)
      | None => None
      end
  | None => Some None
  end.

End LegacyView.

(** *** The revised copy: tables and soil card *)

Module RevisedView.

(** Lines 145-265. *)
Definition CROP_LOOKUP : list (Z * string) :=
  [(1, "Corn"); (2, "Cotton"); (3, "Rice");
   (4, "Sorghum"); (5, "Soybeans"); (6, "Sunflower");
   (10, "Peanuts"); (11, "Tobacco"); (12, "Sweet Corn");
   (13, "Pop/Orn Corn"); (14, "Mint"); (21, "Barley");
   (22, "Durum Wheat"); (23, "Spring Wheat"); (24, "Winter Wheat");
   (25, "Other Small Grains"); (26, "Dbl Crop WinWht/Soybeans"); (27, "Rye");
   (28, "Oats"); (29, "Millet"); (30, "Speltz");
   (31, "Canola"); (32, "Flaxseed"); (33, "Safflower");
   (34, "Rape Seed"); (35, "Mustard"); (36, "Alfalfa");
   (37, "Other Hay/Non Alfalfa"); (41, "Sugarbeets"); (42, "Dry Beans");
   (43, "Potatoes"); (44, "Other Crops"); (45, "Sugarcane");
   (46, "Sweet Potatoes"); (47, "Misc Vegs & Fruits"); (48, "Watermelons");
   (49, "Onions"); (50, "Cucumbers"); (51, "Chick Peas");
   (52, "Lentils"); (53, "Peas"); (54, "Tomatoes");
   (55, "Caneberries"); (56, "Hops"); (57, "Herbs");
   (58, "Clover/Wildflowers"); (59, "Sod/Grass Seed"); (60, "Switchgrass");
   (61, "Fallow/Idle Cropland"); (63, "Forest"); (64, "Shrubland");
   (65, "Barren"); (66, "Cherries"); (67, "Peaches");
   (68, "Apples"); (69, "Grapes"); (70, "Christmas Trees");
   (71, "Other Tree Crops"); (72, "Citrus"); (74, "Pecans");
   (75, "Almonds"); (76, "Walnuts"); (77, "Pears");
   (111, "Open Water"); (121, "Developed/Open Space"); (122, "Developed/Low Intensity");
   (123, "Developed/Med Intensity"); (124, "Developed/High Intensity"); (152, "Shrubland");
   (176, "Grassland/Pasture"); (190, "Woody Wetlands"); (195, "Herbaceous Wetlands");
   (204, "Pistachios"); (205, "Triticale"); (206, "Carrots");
   (207, "Asparagus"); (208, "Garlic"); (209, "Cantaloupes");
   (210, "Prunes"); (211, "Olives"); (212, "Oranges");
   (213, "Honeydew Melons"); (214, "Broccoli"); (216, "Peppers");
   (217, "Pomegranates"); (218, "Nectarines"); (219, "Greens");
   (220, "Plums"); (221, "Strawberries"); (222, "Squash");
   (223, "Apricots"); (224, "Vetch"); (225, "Dbl Crop WinWht/Corn");
   (226, "Dbl Crop Oats/Corn"); (227, "Lettuce"); (228, "Dbl Crop Triticale/Corn");
   (229, "Pumpkins"); (230, "Dbl Crop Lettuce/Durum Wht"); (231, "Dbl Crop Lettuce/Cantaloupe");
   (232, "Dbl Crop Lettuce/Cotton"); (233, "Dbl Crop Lettuce/Barley"); (234, "Dbl Crop Durum Wht/Sorghum");
   (235, "Dbl Crop Barley/Sorghum"); (236, "Dbl Crop WinWht/Sorghum"); (237, "Dbl Crop Barley/Corn");
   (238, "Dbl Crop WinWht/Cotton"); (239, "Dbl Crop Soybeans/Cotton"); (240, "Dbl Crop Soybeans/Oats");
   (241, "Dbl Crop Corn/Soybeans"); (242, "Blueberries"); (243, "Cabbage");
   (244, "Cauliflower"); (245, "Celery"); (246, "Radishes");
   (247, "Turnips"); (248, "Eggplants"); (249, "Gourds");
   (250, "Cranberries"); (254, "Dbl Crop Barley/Soybeans")]%Z.

(** Lines 267-277. *)
Definition cropColors : list (Z * string) :=
  [(1, "#F4D03F"); (5, "#229954"); (24, "#A04000"); (36, "#2ECC71");
   (176, "#CDDC39"); (61, "#BDBDBD"); (66, "#C2185B"); (69, "#7B1FA2");
   (75, "#D7CCC8"); (77, "#AED581"); (228, "#546E7A"); (33, "#FF5722");
   (71, "#BCAAA4"); (204, "#009688"); (212, "#FF9800"); (250, "#C0392B");
   (2, "#FFFFFF"); (3, "#00A8E1"); (4, "#FF9E0A"); (6, "#FFFF00");
   (12, "#F7DC6F"); (21, "#D35400"); (23, "#A04000"); (28, "#8c9eff");
   (37, "#9CCC65"); (43, "#FFCC80"); (54, "#F44336"); (76, "#795548");
   (111, "#4FC3F7"); (121, "#ECEFF1"); (122, "#CFD8DC"); (190, "#7CB342");
   (195, "#81C784")]%Z.

(** [x?.toFixed(f) || d]: the formatted number, or [d] for an absent one. *)
Definition toFixed_or (v : option JS.number) (f : nat) (d : string) : string :=
  View.or_string (View.toFixed_of v f) d.

(** Lines 572-610, the soil composition card; an absent percentage shows as
    [0], an absent metric as ['-']. *)
Definition soil_card (s : Soil) : option (list string) :=
  Some ["Sand: " ++ toFixed_or (sand s) 1 "0" ++ "%";
        "Silt: " ++ toFixed_or (silt s) 1 "0" ++ "%";
        "Clay: " ++ toFixed_or (clay s) 1 "0" ++ "%";
        toFixed_or (ph s) 1 "-";
        toFixed_or (soc s) 1 "-" ++ " g/kg";
        toFixed_or (nitrogen s) 2 "-" ++ " g/kg"].

Definition drawer_soil (fd : FieldData) : option (option (list string)) :=
  match soil fd with
  | Some s =>
      match soil_card s with
      | Some texts => Some (Some texts)
      | None => None
      end
  | None => Some None
  end.

End RevisedView.

(** *** The whole component *)

(** The event loop of [App] with the map, the popup, the marker and the
    remaining handlers of the page.  Both copies share this code but for
    the way the click handler gets its features and the popup its button. *)

Module Ui.

(** A popup on the map: the three texts it shows and the arguments its
    button passes to [fetchAnalysisFromAzure]. *)
Record Popup := mkPopup {
  popup_title : string;
  popup_acres : string;
  popup_county : string;
  popup_click : App.Click
}.

(** The state of [App], the [isMobile] state, the refs [map], [marker] and
    [popup], and the map's side: whether the click handler is registered
    (the [load] event came), the markers and popups attached to it, the
    [flyTo] calls, and the auto-navigate fetch in flight. *)
Record State := mkState {
  app : App.State;
  isMobile : bool;
  map_current : bool;
  clickable : bool;
  marker_current : option nat;
  popup_current : option nat;
  markers : list (nat * (JS.number * JS.number));
  popups : list (nat * Popup);
  flights : list (JS.number * JS.number);
  auto : option string;
  auto_sent : list string;
  next_obj : nat
}.

Definition initial : State :=
  {| app := App.initial; isMobile := false; map_current := false;
     clickable := false; marker_current := None; popup_current := None;
     markers := []; popups := []; flights := []; auto := None;
     auto_sent := []; next_obj := 1 |}.

Definition with_app (st : State) (a : App.State) : State :=
  {| app := a; isMobile := isMobile st; map_current := map_current st;
     clickable := clickable st; marker_current := marker_current st;
     popup_current := popup_current st; markers := markers st;
     popups := popups st; flights := flights st; auto := auto st;
     auto_sent := auto_sent st; next_obj := next_obj st |}.

(** [setAddress], [setShowSuggestions] and [setIsSearching]. *)
Definition set_search (st : State) (addr : string) (showS searching : bool) : State :=
  let a := app st in
  with_app st
    (App.with_search a addr (App.suggestions a) showS searching
       (App.searchTimeout a) (App.timers a) (App.next_id a) (App.searches a)
       (App.network a)).

(** [setShowAnalytics] and [setIsMobileMenuOpen]. *)
Definition set_drawer (st : State) (analytics menu : bool) : State :=
  let a := app st in
  with_app st
    (App.with_analysis a analytics menu (App.fieldData a) (App.loading a)
       (App.next_id a) (App.analyses a) (App.network a) (App.alerts a)).

Definition with_marker (st : State) (ref : option nat)
    (ms : list (nat * (JS.number * JS.number)))
    (fl : list (JS.number * JS.number)) (nid : nat) : State :=
  {| app := app st; isMobile := isMobile st; map_current := map_current st;
     clickable := clickable st; marker_current := ref;
     popup_current := popup_current st; markers := ms;
     popups := popups st; flights := fl; auto := auto st;
     auto_sent := auto_sent st; next_obj := nid |}.

Definition with_popup (st : State) (ref : option nat)
    (ps : list (nat * Popup)) (nid : nat) : State :=
  {| app := app st; isMobile := isMobile st; map_current := map_current st;
     clickable := clickable st; marker_current := marker_current st;
     popup_current := ref; markers := markers st;
     popups := ps; flights := flights st; auto := auto st;
     auto_sent := auto_sent st; next_obj := nid |}.

Definition with_map (st : State) (m c : bool) (au : option string)
    (sent : list string) : State :=
  {| app := app st; isMobile := isMobile st; map_current := m;
     clickable := c; marker_current := marker_current st;
     popup_current := popup_current st; markers := markers st;
     popups := popups st; flights := flights st; auto := au;
     auto_sent := sent; next_obj := next_obj st |}.

Definition with_mobile (st : State) (m : bool) : State :=
  {| app := app st; isMobile := m; map_current := map_current st;
     clickable := clickable st; marker_current := marker_current st;
     popup_current := popup_current st; markers := markers st;
     popups := popups st; flights := flights st; auto := auto st;
     auto_sent := auto_sent st; next_obj := next_obj st |}.

Section WithHost.

(** The record built from a response, and the [CROP_LOOKUP] of the copy. *)
Variable publish : JS.number -> JS.number -> string -> Props -> AnalysisData -> FieldData.
Variable lookup : list (Z * string).

(** [parseFloat] on the geocoder's coordinate strings, and whether
    [setLngLat([lon, lat])] takes a pair or throws, which is the map
    library's to say. *)
Variable parseFloat : string -> JS.number.
Variable accepts : JS.number -> JS.number -> bool.

(** The marker code of [selectSuggestion] and of the auto-navigate:
    [if (marker.current) marker.current.remove()], then the new marker,
    attached, is stored in the ref, then [flyTo].  When [setLngLat] throws
    the old marker is gone and the ref still names it; the flag tells
    whether the code ran to its end. *)
Definition place_marker (lat lon : JS.number) (st : State) : State * bool :=
  let attached :=
    match marker_current st with
    | Some id => App.remove_id id (markers st)
    | None => markers st
    end in
  if accepts lon lat then
    let id := next_obj st in
    (with_marker st (Some id) (attached ++ [(id, (lon, lat))])%list
       (flights st ++ [(lon, lat)])%list (S id), true)
  else
    (with_marker st (marker_current st) attached (flights st) (next_obj st), false).

(** [selectSuggestion]; reading [display_name] of an entry without one
    throws before anything is set. *)
Definition selectSuggestion (sug : App.Suggestion) (st : State) : State :=
  match App.display_name (App.item sug) with
  | None => st
  | Some name =>
      let st := set_search st (View.primary_label name) false (App.isSearching (app st)) in
      if negb (map_current st) then st
      else
        let lat := parseFloat (App.lat (App.item sug)) in
        let lon := parseFloat (App.lon (App.item sug)) in
        let '(st, done) := place_marker lat lon st in
        if done && isMobile st
        then set_drawer st (App.showAnalytics (app st)) false
        else st
  end.

(** [handleMapClick], on the features under the click: [e.features] in
    [src/App.jsx], [queryRenderedFeatures] in the revised copy. *)
Definition handleMapClick (features : list Props) (lat lon : JS.number) (st : State) : State :=
  if negb (map_current st) then st
  else
    match features with
    | [] => st
    | props :: _ =>
        let cropName := View.cropName_of lookup props in
        let acres := View.acres_label props in
        let attached :=
          match popup_current st with
          | Some id => App.remove_id id (popups st)
          | None => popups st
          end in
        let id := next_obj st in
        with_popup st (Some id)
          (attached ++
           [(id, {| popup_title := cropName;
                    popup_acres := acres;
                    popup_county := View.or_string (CNTY props) "N/A";
                    popup_click := {| App.click_lat := lat; App.click_lon := lon;
                                      App.click_crop := cropName;
                                      App.click_props := props |} |})])%list
          (S id)
    end.

(** The [load] handler of the map: the click handler is registered, and
    with a non-empty [Address] parameter in the URL the auto-navigate fetch
    goes out. *)
Definition map_loaded (urlAddress : option string) (st : State) : State :=
  if negb (map_current st) then st
  else
    match urlAddress with
    | Some (String c q) =>
        let url := String c q in
        with_map (set_search st url (App.showSuggestions (app st)) true)
          (map_current st) true (Some url) (auto_sent st ++ [url])%list
    | _ => with_map st (map_current st) true (auto st) (auto_sent st)
    end.

(** The auto-navigate fetch settles: the [then] with the marker code for a
    first entry, the [catch], and the [finally]. *)
Definition auto_settles (r : App.SearchOutcome) (st : State) : State :=
  match auto st with
  | None => st
  | Some _ =>
      let st :=
        match r with
        | App.SearchJson (App.Items (bestMatch :: _)) =>
            if map_current st
            then fst (place_marker (parseFloat (App.lat bestMatch))
                        (parseFloat (App.lon bestMatch)) st)
            else st
        | _ => st
        end in
      with_map (set_search st (App.address (app st)) (App.showSuggestions (app st)) false)
        (map_current st) (clickable st) None (auto_sent st)
  end.

(** What can happen to the page.  A handler of an element that is not
    rendered, or not yet registered, cannot run: the event leaves the
    state. *)
Inductive Event :=
| Resize (innerWidth : Z)
| MapCreated
| MapLoaded (urlAddress : option string)
| AutoSettles (r : App.SearchOutcome)
| AddressInput (val : string)
| TimerFires (id : nat)
| SearchSettles (id : nat) (r : App.SearchOutcome)
| FocusInput
| ClearInput
| SelectSuggestion (i : nat)
| MapClick (features : list Props) (lat lon : JS.number)
| PopupClosed (id : nat)
| AnalyzeButton (id : nat)
| AnalysisSettles (id : nat) (r : App.AnalysisOutcome)
| CloseDrawer
| ToggleMenu.

Definition step (st : State) (ev : Event) : State :=
  let a := app st in
  match ev with
  | Resize w => with_mobile st (w <? 768)%Z
  | MapCreated => with_map st true (clickable st) (auto st) (auto_sent st)
  | MapLoaded url => if clickable st then st else map_loaded url st
  | AutoSettles r => auto_settles r st
  | AddressInput val => with_app st (App.handleAddressChange val a)
  | TimerFires id => with_app st (App.timer_fires id a)
  | SearchSettles id r => with_app st (App.search_settles id r a)
  | FocusInput =>
      if (0 <? List.length (App.suggestions a))%nat
      then set_search st (App.address a) true (App.isSearching a)
      else st
  | ClearInput =>
      match App.address a with
      | EmptyString => st
      | String _ _ =>
          if App.isSearching a then st
          else set_search st "" false (App.isSearching a)
      end
  | SelectSuggestion i =>
      match nth_error (App.visible_suggestions a) i with
      | Some sug => selectSuggestion sug st
      | None => st
      end
  | MapClick features lat lon =>
      if clickable st then handleMapClick features lat lon st else st
  | PopupClosed id => with_popup st (popup_current st) (App.remove_id id (popups st)) (next_obj st)
  | AnalyzeButton id =>
      match App.find_id id (popups st) with
      | Some p => with_app st (App.fetchAnalysisFromAzure (popup_click p) a)
      | None => st
      end
  | AnalysisSettles id r => with_app st (App.analysis_settles publish id r a)
  | CloseDrawer => set_drawer st false (App.isMobileMenuOpen a)
  | ToggleMenu =>
      if isMobile st
      then set_drawer st (App.showAnalytics a) (negb (App.isMobileMenuOpen a))
      else st
  end.

Definition run (st : State) (evs : list Event) : State :=
  fold_left step evs st.

End WithHost.

End Ui.

(** *** The resource loader *)

(** What [loadMapResources] does to the document, both copies alike (lines
    15-49): the tags it appends to the head.  Its promise, which settles on
    the scripts' [load] and [error] events, is not part of this. *)

Module Loader.

Definition MAPLIBRE_CSS : string := "https://unpkg.com/maplibre-gl@3.6.2/dist/maplibre-gl.css".
Definition MAPLIBRE_JS : string := "https://unpkg.com/maplibre-gl@3.6.2/dist/maplibre-gl.js".
Definition PMTILES_JS : string := "https://unpkg.com/pmtiles@3.0.5/dist/pmtiles.js".

(** The [href]s of the document's [link] tags and the [src]s of its
    [script] tags, in document order. *)
Record Document := mkDocument {
  links : list string;
  scripts : list string
}.

(** [document.querySelector] finds a tag with that attribute. *)
Definition found (x : string) (l : list string) : bool := existsb (String.eqb x) l.

Definition loadScript (src : string) (doc : Document) : Document :=
  if found src (scripts doc) then doc
  else {| links := links doc; scripts := (scripts doc ++ [src])%list |}.

Definition loadStyles (href : string) (doc : Document) : Document :=
  if found href (links doc) then doc
  else {| links := (links doc ++ [href])%list; scripts := scripts doc |}.

(** [ready] is [window.maplibregl && window.pmtiles] at the call. *)
Definition loadMapResources (ready : bool) (doc : Document) : Document :=
  if ready then doc
  else loadScript PMTILES_JS (loadScript MAPLIBRE_JS (loadStyles MAPLIBRE_CSS doc)).

(** Calls one after the other. *)
Definition calls (readies : list bool) (doc : Document) : Document :=
  fold_left (fun d ready => loadMapResources ready d) readies doc.

End Loader.

(** * Vocabulary of the properties *)

(** The [score] of a running tally, before [Math.max(0, score)]. *)
Definition raw_score (t : Tally) : JS.number := fst (fst t).

(** The scores the three checks can leave. *)
Definition possible_scores : list JS.number :=
  [100; 85; 80; 65; 70; 50]%float.

(** What [C9] says of one copy's [getHealthScore] at a present sample. *)
Definition score_in_50_100 (getHealthScore : option Soil -> option HealthData)
    (tally : Soil -> Tally) (s : Soil) : Prop :=
  exists h, getHealthScore (Some s) = Some h
    /\ score h = raw_score (tally s)
    /\ (50 <=? score h)%float = true
    /\ (score h <=? 100)%float = true.

(** The assessment [src/App.jsx] returns for a missing sample. *)
Definition zero_assessment : HealthData :=
  {| score := 0%float; issues := []; strengths := [] |}.

(** The scores that carry no pH deduction. *)
Definition scores_without_ph : list JS.number := [100; 80; 85; 65]%float.

(** Sample inputs: a soil with a [ph] of 0, one with a nitrogen of 1.5, one
    with a nitrogen of 0. *)
Definition soil_ph0 : Soil :=
  {| ph := Some 0%float; soc := Some 20%float; nitrogen := Some 2.5%float;
     sand := Some 35%float; silt := Some 40%float; clay := Some 25%float |}.

Definition soil_n15 : Soil :=
  {| ph := Some 6.5%float; soc := Some 20%float; nitrogen := Some 1.5%float;
     sand := Some 35%float; silt := Some 40%float; clay := Some 25%float |}.

Definition soil_n0 : Soil :=
  {| ph := Some 6.5%float; soc := Some 20%float; nitrogen := Some 0%float;
     sand := Some 35%float; silt := Some 40%float; clay := Some 25%float |}.

(** The claim with the observed value at one decimal place, for one copy's
    [getFertilizerPlan]. *)
Definition nitrogen_at_one_decimal (plan : option Soil -> list FertilizerItem) : Prop :=
  forall (s : Soil) (n : JS.number),
    nitrogen s = Some n -> (n <? 2.0)%float = true ->
    In (nitrogen_item (JS.toFixed n 1)) (plan (Some s)).

(** The soil [{sand: 30, clay: 20}] and a response that carries it. *)
Definition soil_30_20 : Soil :=
  {| ph := None; soc := None; nitrogen := None;
     sand := Some 30%float; silt := None; clay := Some 20%float |}.

Definition response_30_20 : AnalysisData :=
  {| data_soil := Some soil_30_20; data_history := None; data_recommendations := None |}.

(** "Treating an absent value as 0". *)
Definition absent_as_zero (v : option JS.number) : JS.number :=
  match v with
  | Some x => x
  | None => 0%float
  end.

(** A value that is a number is not [NaN] (no JSON number is). *)
Definition not_NaN (v : option JS.number) : Prop :=
  forall x, v = Some x -> is_nan x = false.

(** Two clicks, on a corn field and on a soybean field, and two geocoder
    entries. *)
Definition no_props : Props := {| CROP_TYPE := Some 1%Z; CNTY := Some "Story"; CSBACRES := None |}.

Definition click_corn : App.Click :=
  {| App.click_lat := 42%float; App.click_lon := (-93.5)%float;
     App.click_crop := "Corn"; App.click_props := no_props |}.

Definition click_soy : App.Click :=
  {| App.click_lat := 41%float; App.click_lon := (-94)%float;
     App.click_crop := "Soybeans";
     App.click_props := {| CROP_TYPE := Some 5%Z; CNTY := Some "Adair"; CSBACRES := None |} |}.

Definition empty_response : AnalysisData :=
  {| data_soil := None; data_history := None; data_recommendations := None |}.

Definition main_ave : App.Item :=
  {| App.display_name := Some "Main Ave, Ames"; App.lat := "42.02"; App.lon := "-93.61" |}.

Definition main_st : App.Item :=
  {| App.display_name := Some "Main St, Springfield"; App.lat := "39.80"; App.lon := "-89.64" |}.

(** Every id of [l] is below [n]. *)
Definition below {A : Type} (n : nat) (l : list (nat * A)) : Prop :=
  forall i a, In (i, a) l -> i < n.

(** What a copy publishes for the click [c] and the response [data]. *)
Definition published (publish : JS.number -> JS.number -> string -> Props -> AnalysisData -> FieldData)
    (c : App.Click) (data : AnalysisData) : FieldData :=
  publish (App.click_lat c) (App.click_lon c) (App.click_crop c) (App.click_props c) data.

(** The two-click sequence of the claim, from a state [st]. *)
Definition late_first_result (st : App.State) (c1 c2 : App.Click)
    (d1 d2 : AnalysisData) : list App.Event :=
  [App.AnalyzeClick c1;
   App.AnalyzeClick c2;
   App.AnalysisSettles (S (App.next_id st)) (App.Ok d2);
   App.AnalysisSettles (App.next_id st) (App.Ok d1)].

(** Two lookups whose timers both fired, answered in the other order. *)
Definition late_first_search (st : App.State) (q1 q2 : string)
    (b1 b2 : App.SearchBody) : list App.Event :=
  [App.AddressInput q1;
   App.TimerFires (App.next_id st);
   App.AddressInput q2;
   App.TimerFires (S (App.next_id st));
   App.SearchSettles (S (App.next_id st)) (App.SearchJson b2);
   App.SearchSettles (App.next_id st) (App.SearchJson b1)].

(** A lookup is scheduled, then a short input arrives, then the timer
    fires and its response settles. *)
Definition short_after_long (st : App.State) (q val : string)
    (body : App.SearchBody) : list App.Event :=
  [App.AddressInput q;
   App.AddressInput val;
   App.TimerFires (App.next_id st);
   App.SearchSettles (App.next_id st) (App.SearchJson body)].

(** *** Binary64 addition *)

(** The binary digits of a mantissa being shifted. *)
Definition dig (r : shr_record) : Z := Zdigits2 (shr_m r).

(** A result above zero: a positive finite number or [+Infinity]. *)
Definition positive_result (x : spec_float) : Prop :=
  (exists m e, x = S754_finite false m e) \/ x = S754_infinity false.

Definition above_zero (x : float) : Prop := positive_result (Prim2SF x).

(** A percentage that is a number is not negative (and not [NaN]). *)
Definition non_negative (v : option JS.number) : Prop :=
  forall x, v = Some x -> (0 <=? x)%float = true.

(** The ids are positive, and every id in flight or pending is below the
    next id to hand out, as in every state the event loop reaches. *)
Definition fresh (st : App.State) : Prop :=
  0 < App.next_id st
  /\ below (App.next_id st) (App.timers st)
  /\ below (App.next_id st) (App.searches st)
  /\ below (App.next_id st) (App.analyses st).

(** Three keystrokes, then every timer they started comes due. *)
Definition three_keystrokes (st : App.State) (q1 q2 q3 : string) : list App.Event :=
  [App.AddressInput q1;
   App.AddressInput q2;
   App.AddressInput q3;
   App.TimerFires (App.next_id st);
   App.TimerFires (S (App.next_id st));
   App.TimerFires (S (S (App.next_id st)))].

(** Suggestions in descending order of [rankScore]. *)
Definition descending (l : list App.Suggestion) : Prop :=
  StronglySorted (fun a b => (App.rankScore b <= App.rankScore a)%Z) l.

(** The sample with [ph || 6.5], [soc || 20] and [nitrogen || 2.5] in place
    of the three fields. *)
Definition with_defaults (s : Soil) : Soil :=
  {| ph := Some (JS.or_default (ph s) 6.5);
     soc := Some (JS.or_default (soc s) 20);
     nitrogen := Some (JS.or_default (nitrogen s) 2.5);
     sand := sand s; silt := silt s; clay := clay s |}.

(** The history entry of the clicked field. *)
Definition current_entry (name : string) (props : Props) : HistoryEntry :=
  {| crop := name; code := CROP_TYPE props; acres := CSBACRES props |}.

Definition springfield : App.Item :=
  {| App.display_name := Some "123 Main St, Springfield"; App.lat := "39.80"; App.lon := "-89.64" |}.

Definition chicago : App.Item :=
  {| App.display_name := Some "456 Main St, Chicago"; App.lat := "41.88"; App.lon := "-87.63" |}.


(** *** The view *)

(** The label that goes with a number of issues. *)
Definition label_of_issues (n : nat) : string :=
  match n with
  | 0 | 1 => "Excellent"
  | 2 => "Fair"
  | _ => "Poor"
  end.

(** The health card is there and its label is the one of its issues. *)
Definition label_counts_issues (card : option View.HealthCard) : Prop :=
  match card with
  | Some c => View.card_label c = label_of_issues (List.length (View.card_issues c))
  | None => False
  end.

(** What a plan recommends and what an assessment reports. *)
Definition recommends_nitrogen (plan : list FertilizerItem) : Prop :=
  exists cur, In (nitrogen_item cur) plan.

Definition recommends_lime (plan : list FertilizerItem) : Prop :=
  exists cur, In (ph_item cur) plan.

Definition reports_low_nitrogen (h : HealthData) : Prop :=
  In low_nitrogen_issue (issues h).

Definition reports_acidic (h : HealthData) : Prop :=
  exists p, In (acidic_issue p) (issues h).

(** A response with a soil sample. *)
Definition response_with (s : Soil) (h : option History) (r : option (list Recommendation))
    : AnalysisData :=
  {| data_soil := Some s; data_history := h; data_recommendations := r |}.

(** A response without one. *)
Definition response_without (h : option History) (r : option (list Recommendation))
    : AnalysisData :=
  {| data_soil := None; data_history := h; data_recommendations := r |}.

(** A sample with every field. *)
Definition complete (s : Soil) : Prop :=
  ph s <> None /\ soc s <> None /\ nitrogen s <> None
  /\ sand s <> None /\ silt s <> None /\ clay s <> None.

(** Rows in descending order of year. *)
Definition years_descending (rows : list View.TimelineRow) : Prop :=
  StronglySorted (fun a b => (View.row_year b <= View.row_year a)%Z) rows.

(** Whether a geocoder entry's name starts with the query, letter case
    apart. *)
Definition name_starts_with (val : string) (it : App.Item) : bool :=
  match App.display_name it with
  | Some name => JS.startsWith (JS.toLowerCase name) (JS.toLowerCase val)
  | None => false
  end.

(** A table entry that can be told from a missing one. *)
Definition proper_name (kv : Z * string) : Prop :=
  snd kv <> "" /\ snd kv <> "Unknown".

(** A legend row with a text. *)
Definition labelled (row : string * option string) : Prop :=
  exists name, snd row = Some name /\ name <> "".

(** A sample with a low pH below zero: an acidic issue and no lime in the
    revised copy. *)
Definition soil_negative_ph : Soil :=
  {| ph := Some (-1)%float; soc := Some 20%float; nitrogen := Some 2.5%float;
     sand := Some 35%float; silt := Some 40%float; clay := Some 25%float |}.

(** The suggestion the [map] callback makes of an entry that has a name. *)
Definition scored (val : string) (it : App.Item) : App.Suggestion :=
  {| App.item := it;
     App.rankScore := if name_starts_with val it then 100%Z else 0%Z |}.


(** What the revised soil card shows for a field: the number formatted, or
    the fallback text for an absent one. *)
Definition shown (v : option JS.number) (f : nat) (d : string) : string :=
  match v with
  | Some x => JS.toFixed x f
  | None => d
  end.

Definition soil_texts (s : Soil) : list string :=
  ["Sand: " ++ shown (sand s) 1 "0" ++ "%";
   "Silt: " ++ shown (silt s) 1 "0" ++ "%";
   "Clay: " ++ shown (clay s) 1 "0" ++ "%";
   shown (ph s) 1 "-";
   shown (soc s) 1 "-" ++ " g/kg";
   shown (nitrogen s) 2 "-" ++ " g/kg"].

(** A sample that lacks one of its six fields. *)
Definition lacks_a_field (s : Soil) : Prop :=
  ph s = None \/ soc s = None \/ nitrogen s = None
  \/ sand s = None \/ silt s = None \/ clay s = None.

(** The health card and the texts of the soil card for the sample the
    revised copy puts in place of a missing one. *)
Definition default_health_card : View.HealthCard :=
  {| View.card_score := "100"; View.card_label := "Excellent";
     View.card_strengths := ["pH is in optimal range"; "Good organic matter"];
     View.card_issues := [] |}.

Definition default_soil_texts : list string :=
  ["Sand: 35.0%"; "Silt: 40.0%"; "Clay: 25.0%"; "6.5"; "20.0 g/kg"; "2.50 g/kg"].

(** *** The page *)

(** At most one object of a kind is attached to the map, and it is the one
    the ref names. *)
Definition tracked {A : Type} (ref : option nat) (l : list (nat * A)) : Prop :=
  l = [] \/ exists i x, l = [(i, x)] /\ ref = Some i.

Definition tracked_refs (st : Ui.State) : Prop :=
  tracked (Ui.marker_current st) (Ui.markers st)
  /\ tracked (Ui.popup_current st) (Ui.popups st).

Definition one_marker_one_popup (st : Ui.State) : Prop :=
  List.length (Ui.markers st) <= 1 /\ List.length (Ui.popups st) <= 1.

(** The spinner of the search box is on only while a lookup is scheduled or
    a geocoder fetch is in flight, and the drawer's loader only while an
    analysis fetch is. *)
Definition busy_for_a_reason (st : Ui.State) : Prop :=
  (App.isSearching (Ui.app st) = true ->
     App.timers (Ui.app st) <> [] \/ App.searches (Ui.app st) <> [] \/ Ui.auto st <> None)
  /\ (App.loading (Ui.app st) = true -> App.analyses (Ui.app st) <> []).

(** One scheduled lookup at most, the one [searchTimeout] names. *)
Definition one_timer (a : App.State) : Prop :=
  0 < App.next_id a
  /\ (App.timers a = []
      \/ exists i v, App.timers a = [(i, v)] /\ App.searchTimeout a = Some i /\ 0 < i).

(** Every lookup scheduled, in flight or sent has a query of three
    characters or more. *)
Definition long_queries (a : App.State) : Prop :=
  (forall i v, In (i, v) (App.timers a) -> 3 <= String.length v)
  /\ (forall i v, In (i, v) (App.searches a) -> 3 <= String.length v)
  /\ (forall q, In (App.SearchRequest q) (App.network a) -> 3 <= String.length q).

(** At most five suggestions, each with a name. *)
Definition named_suggestions (a : App.State) : Prop :=
  List.length (App.suggestions a) <= 5
  /\ forall sug, In sug (App.suggestions a) ->
       exists name, App.display_name (App.item sug) = Some name.

(** The click's crop name is the table's for its feature. *)
Definition names_its_feature (lookup : list (Z * string)) (c : App.Click) : Prop :=
  App.click_crop c = View.cropName_of lookup (App.click_props c).

(** The clicks behind the popups, the fetches in flight and the record
    shown all name their features by the table. *)
Definition from_clicks
    (publish : JS.number -> JS.number -> string -> Props -> AnalysisData -> FieldData)
    (lookup : list (Z * string)) (st : Ui.State) : Prop :=
  (forall i p, In (i, p) (Ui.popups st) ->
     names_its_feature lookup (Ui.popup_click p)
     /\ Ui.popup_title p = App.click_crop (Ui.popup_click p))
  /\ (forall i c, In (i, c) (App.analyses (Ui.app st)) -> names_its_feature lookup c)
  /\ (forall fd, App.fieldData (Ui.app st) = Some fd ->
        exists c data, names_its_feature lookup c /\ fd = published publish c data).

(** A visit: the map comes up, a field is clicked, its analysis is run and
    answered. *)
Definition one_analysis (props : Props) (lat lon : JS.number) (data : AnalysisData)
    : list Ui.Event :=
  [Ui.MapCreated; Ui.MapLoaded None; Ui.MapClick [props] lat lon;
   Ui.AnalyzeButton 1; Ui.AnalysisSettles 1 (App.Ok data)].

(** *** The two copies side by side *)

(** A field that is there and above zero. *)
Definition is_positive (v : option JS.number) : Prop :=
  exists x, v = Some x /\ (0 <? x)%float = true.

(** A sample with its six fields, all above zero but silt, which need only
    be there. *)
Definition positive_sample (s : Soil) : Prop :=
  is_positive (ph s) /\ is_positive (soc s) /\ is_positive (nitrogen s)
  /\ is_positive (sand s) /\ is_positive (clay s) /\ silt s <> None.

Definition soil_loam : Soil :=
  {| ph := Some 6.25%float; soc := Some 18%float; nitrogen := Some 1.75%float;
     sand := Some 40%float; silt := Some 40%float; clay := Some 20%float |}.

(** What an issue takes off the score, by its severity. *)
Definition penalty (i : Issue) : JS.number :=
  if String.eqb (severity i) "high" then 20%float else 15%float.

(** 100 less the penalties of the issues, in their order. *)
Definition score_of_issues (l : list Issue) : JS.number :=
  fold_left (fun sc i => (sc - penalty i)%float) l 100%float.

(** *** The lines of a suggestion *)

Fixpoint has_comma (s : string) : bool :=
  match s with
  | EmptyString => false
  | String c s' => Ascii.eqb c "," || has_comma s'
  end.

(** *** The loader's tags *)

(** The document has the stylesheet and the two scripts. *)
Definition resources_requested (doc : Loader.Document) : Prop :=
  Loader.found Loader.MAPLIBRE_CSS (Loader.links doc) = true
  /\ Loader.found Loader.MAPLIBRE_JS (Loader.scripts doc) = true
  /\ Loader.found Loader.PMTILES_JS (Loader.scripts doc) = true.
(** * Properties *)

(** ** Scores *)

Lemma checks_score (v1 v2 v3 : option JS.number) :
  In (raw_score (check_nitrogen v3 (check_soc v2 (check_ph v1 (100%float, [], [])))))
     possible_scores.
Proof.
  unfold check_nitrogen, check_soc, check_ph, JS.lt.
  destruct v1 as [p|], v2 as [c|], v3 as [n|];
    repeat match goal with
           | |- context [if ?b then _ else _] => destruct b
           end;
    vm_compute; tauto.
Qed.

Lemma clamp_idle (x : JS.number) :
  In x possible_scores ->
  JS.Math_max 0 x = x /\ (50 <=? x)%float = true /\ (x <=? 100)%float = true.
Proof.
  unfold possible_scores; simpl.
  intros H; repeat destruct H as [H|H]; try contradiction; subst x;
    vm_compute; auto.
Qed.

Lemma close_tally_score (t : Tally) : score (close_tally t) = JS.Math_max 0 (raw_score t).
Proof. destruct t as [[sc iss] sts]; reflexivity. Qed.

Lemma legacy_tally_score (s : Soil) : In (raw_score (Legacy.tally s)) possible_scores.
Proof. unfold Legacy.tally. apply checks_score. Qed.

Lemma revised_tally_score (s : Soil) : In (raw_score (Revised.tally s)) possible_scores.
Proof. unfold Revised.tally. apply checks_score. Qed.

(** C9: for every present soil sample the health score is at least 50 and at
    most 100, in both copies of [getHealthScore]: the deductions total at
    most 50, and the clamp [Math.max(0, score)] returns the score it is given. *)
Theorem C9_score_between_50_and_100 (s : Soil) :
  score_in_50_100 Legacy.getHealthScore Legacy.tally s
  /\ score_in_50_100 Revised.getHealthScore Revised.tally s.
Proof.
  split.
  - exists (close_tally (Legacy.tally s)). split; [reflexivity|].
    rewrite close_tally_score.
    destruct (clamp_idle _ (legacy_tally_score s)) as (E & L & U).
    rewrite E. auto.
  - exists (close_tally (Revised.tally s)). split; [reflexivity|].
    rewrite close_tally_score.
    destruct (clamp_idle _ (revised_tally_score s)) as (E & L & U).
    rewrite E. auto.
Qed.

(** ** Absent soil *)

(** C1: for an absent soil sample [getHealthScore] of [src/App.jsx] returns
    the assessment with score 0 and no issues or strengths; the revised copy
    returns [null]. *)
Theorem C1_absent_soil :
  Legacy.getHealthScore None = Some zero_assessment
  /\ Revised.getHealthScore None = None.
Proof. split; reflexivity. Qed.

(** With no [soil] in the response, [src/App.jsx] publishes that zero
    assessment. *)
Lemma legacy_publishes_zero_score lat lon name props data :
  data_soil data = None ->
  healthData (Legacy.publish lat lon name props data) = Some zero_assessment.
Proof. intros E. unfold Legacy.publish. simpl. rewrite E. reflexivity. Qed.

(** The revised copy never passes an absent sample on. *)
Lemma revised_publishes_assessment lat lon name props data :
  exists h, healthData (Revised.publish lat lon name props data) = Some h.
Proof. unfold Revised.publish. simpl. eexists. reflexivity. Qed.

(** ** Defaults inside the revised helpers *)

Lemma or_default_falsy (p d : JS.number) :
  JS.ToBoolean p = false -> JS.or_default (Some p) d = d.
Proof. intros E. unfold JS.or_default. rewrite E. reflexivity. Qed.

Lemma or_default_truthy (p d : JS.number) :
  JS.ToBoolean p = true -> JS.or_default (Some p) d = p.
Proof. intros E. unfold JS.or_default. rewrite E. reflexivity. Qed.

Lemma zero_is_falsy (p : JS.number) : (p =? 0)%float = true -> JS.ToBoolean p = false.
Proof. intros E. unfold JS.ToBoolean, is_zero. change PrimFloat.zero with 0%float. rewrite E. reflexivity. Qed.

Lemma check_ph_default (t : Tally) : check_ph (Some 6.5%float) t = credit ph_strength t.
Proof. reflexivity. Qed.

(** C10: the revised [getHealthScore] is the one of [src/App.jsx] after the
    defaults [ph || 6.5], [soc || 20], [nitrogen || 2.5], taken inside the
    function; so a [ph] of 0 counts as 6.5: [getHealthScore] records the
    strength "pH is in optimal range", raises no acidity issue and deducts
    nothing for pH, and [getFertilizerPlan] has no Ag Limestone entry. *)
Theorem C10_zero_ph_takes_default (s : Soil) (p : JS.number) :
  ph s = Some p ->
  (p =? 0)%float = true ->
  Revised.getHealthScore (Some s) = Legacy.getHealthScore (Some (with_defaults s))
  /\ JS.or_default (ph s) 6.5 = 6.5%float
  /\ (exists h, Revised.getHealthScore (Some s) = Some h
        /\ In ph_strength (strengths h)
        /\ (forall i, In i (issues h) -> i = low_organic_issue \/ i = low_nitrogen_issue)
        /\ In (score h) scores_without_ph)
  /\ (forall it, In it (Revised.getFertilizerPlan (Some s)) -> fertilizer it <> "Ag Limestone").
Proof.
  intros Hp Hz. apply zero_is_falsy in Hz.
  assert (D : JS.or_default (ph s) 6.5 = 6.5%float)
    by (rewrite Hp; apply or_default_falsy; exact Hz).
  split; [reflexivity|]. split; [exact D|]. split.
  - exists (close_tally (Revised.tally s)). split; [reflexivity|].
    unfold Revised.tally. rewrite D, check_ph_default.
    unfold check_nitrogen, check_soc, JS.lt, scores_without_ph.
    destruct (JS.or_default (soc s) 20 <? 15)%float;
      destruct (JS.or_default (nitrogen s) 2.5 <? 2)%float;
      vm_compute; intuition.
  - unfold Revised.getFertilizerPlan. rewrite D.
    unfold push_nitrogen.
    destruct (JS.or_default (nitrogen s) 2.5 <? 2)%float;
      simpl; intros it H; intuition; subst it; discriminate.
Qed.

Lemma C10_witness :
  Revised.getHealthScore (Some soil_ph0) = Legacy.getHealthScore (Some (with_defaults soil_ph0))
  /\ JS.or_default (ph soil_ph0) 6.5 = 6.5%float
  /\ (exists h, Revised.getHealthScore (Some soil_ph0) = Some h
        /\ In ph_strength (strengths h)
        /\ (forall i, In i (issues h) -> i = low_organic_issue \/ i = low_nitrogen_issue)
        /\ In (score h) scores_without_ph)
  /\ (forall it, In it (Revised.getFertilizerPlan (Some soil_ph0)) -> fertilizer it <> "Ag Limestone").
Proof. apply (C10_zero_ph_takes_default soil_ph0 0%float); reflexivity. Defined.

(** ** The nitrogen recommendation *)

Example plan_n15 :
  Legacy.getFertilizerPlan (Some soil_n15) = [nitrogen_item "1.50"]
  /\ Revised.getFertilizerPlan (Some soil_n15) = [nitrogen_item "1.50"]
  /\ JS.toFixed 1.5 1 = "1.5".
Proof. repeat split; vm_compute; reflexivity. Qed.

Example plan_n0 :
  Legacy.getFertilizerPlan (Some soil_n0) = [nitrogen_item "0.00"]
  /\ Revised.getFertilizerPlan (Some soil_n0) = [].
Proof. split; vm_compute; reflexivity. Qed.

(** C4, as stated, fails in both copies: a nitrogen of 1.5 is reported as
    "1.50", not "1.5"; and the revised copy reports nothing for a nitrogen
    of 0. *)
Lemma C4_counterexample :
  ~ nitrogen_at_one_decimal Legacy.getFertilizerPlan
  /\ ~ nitrogen_at_one_decimal Revised.getFertilizerPlan
  /\ (0 <? 2.0)%float = true
  /\ Revised.getFertilizerPlan (Some soil_n0) = [].
Proof.
  split; [|split; [|split; reflexivity]].
  - intros C. specialize (C soil_n15 1.5%float eq_refl eq_refl).
    vm_compute in C. destruct C as [C|[]]. discriminate C.
  - intros C. specialize (C soil_n15 1.5%float eq_refl eq_refl).
    vm_compute in C. destruct C as [C|[]]. discriminate C.
Qed.

(** C4, amended: for every soil sample with a nonzero nitrogen below 2.0 the
    fertilizer plan of either copy starts with the nitrogen recommendation:
    amount "80-100 lbs/ac", fertilizer "Urea (46-0-0)", the observed nitrogen
    at two decimal places, target "3.5", timing "Split application at
    planting", priority HIGH. *)
Theorem C4_nitrogen_recommendation (s : Soil) (n : JS.number) :
  nitrogen s = Some n ->
  (n <? 2.0)%float = true ->
  JS.ToBoolean n = true ->
  exists it,
    nutrient it = "Nitrogen (N)" /\ priority it = "HIGH"
    /\ amount it = "80-100 lbs/ac" /\ fertilizer it = "Urea (46-0-0)"
    /\ current it = JS.toFixed n 2 /\ target it = "3.5"
    /\ timing it = "Split application at planting"
    /\ (exists rest, Legacy.getFertilizerPlan (Some s) = it :: rest)
    /\ (exists rest, Revised.getFertilizerPlan (Some s) = it :: rest).
Proof.
  intros Hn Hlt Ht.
  exists (nitrogen_item (JS.toFixed n 2)).
  repeat (split; [reflexivity|]). split.
  - unfold Legacy.getFertilizerPlan, push_nitrogen. rewrite Hn, Hlt. simpl.
    destruct (ph s) as [p|]; [destruct (p <? 6)%float|]; eexists; reflexivity.
  - unfold Revised.getFertilizerPlan, push_nitrogen.
    rewrite Hn, (or_default_truthy _ _ Ht), Hlt. simpl.
    destruct (_ && _); eexists; reflexivity.
Qed.

Lemma C4_witness :
  exists it,
    nutrient it = "Nitrogen (N)" /\ priority it = "HIGH"
    /\ amount it = "80-100 lbs/ac" /\ fertilizer it = "Urea (46-0-0)"
    /\ current it = JS.toFixed 1.5 2 /\ target it = "3.5"
    /\ timing it = "Split application at planting"
    /\ (exists rest, Legacy.getFertilizerPlan (Some soil_n15) = it :: rest)
    /\ (exists rest, Revised.getFertilizerPlan (Some soil_n15) = it :: rest).
Proof. apply (C4_nitrogen_recommendation soil_n15 1.5%float); reflexivity. Defined.

(** ** Binary64 addition: a sum of non-negative numbers is zero only if both are *)

(** Rounding shifts a positive mantissa right by fewer bits than it has, so
    the sum of two positive numbers rounds to a positive number. *)

Lemma shr_1_dig (r : shr_record) :
  (0 <= shr_m r)%Z ->
  (0 <= shr_m (shr_1 r))%Z /\ dig (shr_1 r) = Z.max 0 (dig r - 1).
Proof.
  destruct r as [m b s]. unfold dig. cbn [shr_m]. intros H.
  destruct m as [|p|p]; [split; reflexivity| |lia].
  destruct p; cbn [shr_1 shr_m Zdigits2 digits2_pos orb];
    rewrite ?Pos2Z.inj_succ; split; try lia; reflexivity.
Qed.

Lemma iter_shr_dig (n : positive) : forall r : shr_record,
  (0 <= shr_m r)%Z ->
  (0 <= shr_m (iter_pos shr_1 n r))%Z
  /\ dig (iter_pos shr_1 n r) = Z.max 0 (dig r - Zpos n).
Proof.
  induction n as [n IH|n IH|]; intros r H; simpl.
  - destruct (shr_1_dig r H) as (H1 & D1).
    destruct (IH _ H1) as (H2 & D2).
    destruct (IH _ H2) as (H3 & D3).
    split; [exact H3|]. rewrite D3, D2, D1. lia.
  - destruct (IH _ H) as (H2 & D2).
    destruct (IH _ H2) as (H3 & D3).
    split; [exact H3|]. rewrite D3, D2. lia.
  - apply shr_1_dig. exact H.
Qed.

Lemma shr_record_of_loc_m (m : Z) (l : SpecFloat.location) : shr_m (shr_record_of_loc m l) = m.
Proof. destruct l as [|[| |]]; reflexivity. Qed.

Lemma shr_fexp_pos (p : positive) (e : Z) (l : SpecFloat.location) :
  (emin <= e)%Z ->
  exists q r s e',
    shr_fexp prec emax (Zpos p) e l = ({| shr_m := Zpos q; shr_r := r; shr_s := s |}, e')
    /\ (emin <= e')%Z.
Proof.
  intros He. unfold shr_fexp, shr.
  set (d := Zdigits2 (Zpos p)).
  assert (Hd : (1 <= d)%Z) by (unfold d; simpl; lia).
  set (n := (fexp prec emax (d + e) - e)%Z).
  assert (Hn : (n < d)%Z).
  { unfold n, fexp. assert (0 < prec)%Z by reflexivity. lia. }
  destruct n as [|k|k] eqn:En.
  - destruct l as [|[| |]]; simpl; do 4 eexists; split; try reflexivity; lia.
  - pose proof (iter_shr_dig k (shr_record_of_loc (Zpos p) l)) as I.
    rewrite shr_record_of_loc_m in I. destruct I as (I1 & I2); [lia|].
    unfold dig in I2. rewrite shr_record_of_loc_m in I2. fold d in I2.
    destruct (iter_pos shr_1 k (shr_record_of_loc (Zpos p) l)) as [m r s].
    cbn [shr_m] in I1, I2. destruct m as [|q|q]; [cbn [Zdigits2] in I2; lia| |lia].
    do 4 eexists; split; [reflexivity|lia].
  - destruct l as [|[| |]]; simpl; do 4 eexists; split; try reflexivity; lia.
Qed.

Lemma round_nearest_even_pos (q : positive) (l : SpecFloat.location) :
  exists q', round_nearest_even (Zpos q) l = Zpos q'.
Proof.
  destruct l as [|[| |]]; cbn [round_nearest_even]; try (eexists; reflexivity).
  destruct (Z.even (Zpos q)); eexists; reflexivity.
Qed.

Lemma binary_round_aux_positive (p : positive) (e : Z) (l : SpecFloat.location) :
  (emin <= e)%Z ->
  positive_result (binary_round_aux prec emax false (Zpos p) e l).
Proof.
  intros He. unfold binary_round_aux.
  destruct (shr_fexp_pos p e l He) as (q & r & s & e' & E & He'). rewrite E.
  cbn [shr_m].
  destruct (round_nearest_even_pos q (loc_of_shr_record {| shr_m := Zpos q; shr_r := r; shr_s := s |}))
    as (q' & Eq). rewrite Eq.
  destruct (shr_fexp_pos q' e' loc_Exact He') as (q2 & r2 & s2 & e2 & E2 & He2). rewrite E2.
  cbn [shr_m]. destruct (e2 <=? emax - prec)%Z; [left; eauto|right; reflexivity].
Qed.

Lemma binary_round_positive (p : positive) (e : Z) :
  (emin <= e)%Z ->
  positive_result (binary_round prec emax false p e).
Proof.
  intros He. unfold binary_round, shl_align.
  set (t := fexp prec emax (Zpos (digits2_pos p) + e)).
  assert (Ht : (emin <= t)%Z) by (unfold t, fexp; lia).
  destruct (t - e)%Z; apply binary_round_aux_positive; assumption.
Qed.

Lemma valid_exponent (s : bool) (m : positive) (e : Z) :
  valid_binary (S754_finite s m e) = true ->
  (emin <= e)%Z.
Proof.
  unfold valid_binary, bounded, canonical_mantissa, fexp. intros H.
  apply andb_true_iff in H. destruct H as (H & _). apply Z.eqb_eq in H. lia.
Qed.

Lemma SFadd_positive (x y : spec_float) :
  valid_binary x = true -> valid_binary y = true ->
  positive_result x -> positive_result y \/ y = S754_zero false ->
  positive_result (SFadd prec emax x y).
Proof.
  intros Vx Vy [(mx & ex & ->)| ->] [[(my & ey & ->)| ->]| ->]; simpl;
    try (left; eauto; fail); try (right; reflexivity).
  apply valid_exponent in Vx, Vy.
  unfold shl_align.
  destruct (Z.min ex ey - ex)%Z; destruct (Z.min ex ey - ey)%Z; cbn [fst cond_Zopp Z.add];
    apply binary_round_positive; lia.
Qed.

Lemma positive_result_nonzero (x : spec_float) :
  positive_result x -> SFeqb x (S754_zero false) = false.
Proof. intros [(m & e & ->)| ->]; reflexivity. Qed.

Lemma above_zero_iff (x : float) :
  (0 <=? x)%float = true -> (x =? 0)%float = false -> above_zero x.
Proof.
  rewrite leb_spec, eqb_spec. change (Prim2SF 0) with (S754_zero false).
  unfold above_zero. destruct (Prim2SF x) as [s|s| |s m e]; simpl.
  - discriminate.
  - destruct s; [discriminate|]. right. reflexivity.
  - discriminate.
  - destruct s; [discriminate|]. left. eauto.
Qed.

Lemma add_above_zero (x y : float) :
  above_zero x -> above_zero y \/ y = 0%float -> (x + y =? 0)%float = false.
Proof.
  intros Hx Hy. rewrite eqb_spec, add_spec. change (Prim2SF 0) with (S754_zero false).
  apply positive_result_nonzero. apply SFadd_positive; try apply Prim2SF_valid; [exact Hx|].
  destruct Hy as [Hy| ->]; [left; exact Hy|right; reflexivity].
Qed.

Lemma zero_add_above_zero (y : float) :
  above_zero y -> (0 + y =? 0)%float = false.
Proof.
  intros Hy. rewrite eqb_spec, add_spec. change (Prim2SF 0) with (S754_zero false).
  apply positive_result_nonzero. unfold above_zero in Hy.
  destruct Hy as [(m & e & E)|E]; rewrite E; simpl; [left; eauto|right; reflexivity].
Qed.

Lemma truthy_above_zero (v : option JS.number) (x : JS.number) :
  non_negative v -> v = Some x -> JS.ToBoolean x = true -> above_zero x.
Proof.
  intros N E T. apply above_zero_iff; [apply (N x E)|].
  unfold JS.ToBoolean in T. apply negb_true_iff, orb_false_iff in T. apply T.
Qed.

(** [v || 0] of a non-negative value is above zero, or it is the 0 of a
    falsy [v]. *)
Lemma or_default_cases (v : option JS.number) :
  non_negative v ->
  (JS.not v = false /\ above_zero (JS.or_default v 0))
  \/ (JS.not v = true /\ JS.or_default v 0 = 0%float).
Proof.
  intros N. destruct v as [x|]; [|right; split; reflexivity].
  unfold JS.not, JS.or_default. destruct (JS.ToBoolean x) eqn:T.
  - left. split; [reflexivity|]. exact (truthy_above_zero _ _ N eq_refl T).
  - right. split; reflexivity.
Qed.

(** ** Texture *)

Lemma legacy_texture_unknown (sand clay : option JS.number) :
  JS.not sand = true \/ JS.not clay = true ->
  Legacy.getTextureClass sand clay = "Unknown".
Proof.
  intros [E|E]; unfold Legacy.getTextureClass; rewrite E;
    [reflexivity | rewrite orb_true_r; reflexivity].
Qed.

(** C5: with one of sand and clay absent or zero and the other one present,
    [getTextureClass] of [src/App.jsx] answers "Unknown", where the revised
    copy classifies by the thresholds. *)
Theorem C5_texture_with_one_value :
  Legacy.getTextureClass (Some 50%float) None = "Unknown"
  /\ Legacy.getTextureClass (Some 50%float) (Some 0%float) = "Unknown"
  /\ Legacy.getTextureClass None (Some 45%float) = "Unknown"
  /\ Revised.getTextureClass (Some 50%float) None = "Sandy Loam"
  /\ Revised.getTextureClass (Some 50%float) (Some 0%float) = "Sandy Loam"
  /\ Revised.getTextureClass None (Some 45%float) = "Clay".
Proof. repeat split; vm_compute; reflexivity. Qed.

(** The revised rules: "Unknown" when both values are absent or zero, and
    otherwise, unless the two cancel to a sum of 0, Clay before Sandy Loam
    before Loam. *)
Lemma revised_texture_both_missing (sand clay : option JS.number) :
  JS.not sand = true -> JS.not clay = true ->
  Revised.getTextureClass sand clay = "Unknown".
Proof.
  intros Hs Hc. unfold Revised.getTextureClass.
  assert (Es : JS.or_default sand 0 = 0%float).
  { destruct sand as [x|]; [|reflexivity]. simpl in Hs. unfold JS.or_default.
    destruct (JS.ToBoolean x); [discriminate|reflexivity]. }
  assert (Ec : JS.or_default clay 0 = 0%float).
  { destruct clay as [x|]; [|reflexivity]. simpl in Hc. unfold JS.or_default.
    destruct (JS.ToBoolean x); [discriminate|reflexivity]. }
  rewrite Es, Ec. reflexivity.
Qed.

Lemma revised_texture_thresholds (sand clay : option JS.number) :
  (JS.or_default sand 0 + JS.or_default clay 0 =? 0)%float = false ->
  Revised.getTextureClass sand clay =
    if (40 <=? JS.or_default clay 0)%float then "Clay"
    else if (45 <? JS.or_default sand 0)%float then "Sandy Loam"
    else "Loam".
Proof. intros E. unfold Revised.getTextureClass. rewrite E. reflexivity. Qed.

(** X2: the revised [getTextureClass], on percentages that are not
    negative, answers "Unknown" exactly when sand and clay are both absent or
    zero. *)
Theorem revised_texture_unknown_iff (sand clay : option JS.number) :
  non_negative sand -> non_negative clay ->
  (Revised.getTextureClass sand clay = "Unknown"
   <-> JS.not sand = true /\ JS.not clay = true).
Proof.
  intros Ns Nc. split.
  - intros U.
    destruct (or_default_cases sand Ns) as [(Fs & As)|(Fs & Zs)];
      destruct (or_default_cases clay Nc) as [(Fc & Ac)|(Fc & Zc)];
      try (split; assumption); exfalso.
    + rewrite (revised_texture_thresholds sand clay) in U
        by (apply add_above_zero; auto).
      destruct (40 <=? _)%float; [discriminate|]. destruct (45 <? _)%float; discriminate.
    + rewrite (revised_texture_thresholds sand clay) in U
        by (apply add_above_zero; auto).
      destruct (40 <=? _)%float; [discriminate|]. destruct (45 <? _)%float; discriminate.
    + rewrite (revised_texture_thresholds sand clay) in U
        by (rewrite Zs; apply zero_add_above_zero; exact Ac).
      destruct (40 <=? _)%float; [discriminate|]. destruct (45 <? _)%float; discriminate.
  - intros (Hs & Hc). apply revised_texture_both_missing; assumption.
Qed.

Lemma revised_texture_unknown_iff_witness :
  Revised.getTextureClass (Some 0%float) None = "Unknown"
  <-> JS.not (Some 0%float) = true /\ JS.not None = true.
Proof.
  apply (revised_texture_unknown_iff (Some 0%float) None);
    intros x E; [injection E as <-; reflexivity | discriminate E].
Defined.

(** ** Silt completion *)

(** C3: for the response [{soil: {sand: 30, clay: 20}}], [src/App.jsx]
    publishes the soil as received, silt absent; the revised copy publishes
    it with silt 50. *)
Theorem C3_silt_of_sand30_clay20 (lat lon : JS.number) (name : string) (props : Props) :
  soil (Legacy.publish lat lon name props response_30_20) = Some soil_30_20
  /\ silt soil_30_20 = None
  /\ option_map silt (soil (Revised.publish lat lon name props response_30_20))
     = Some (Some 50%float).
Proof. repeat split. Qed.

(** A number that compares equal to 0 is [+0] or [-0]. *)
Lemma eqb_zero_cases (x : JS.number) :
  (x =? 0)%float = true -> x = 0%float \/ x = (-0)%float.
Proof.
  intros E. rewrite eqb_spec in E.
  change (Prim2SF 0) with (S754_zero false) in E.
  rewrite <- (SF2Prim_Prim2SF x).
  destruct (Prim2SF x) as [s|s| |s m e].
  - destruct s; [right|left]; reflexivity.
  - destruct s; discriminate E.
  - discriminate E.
  - destruct s; discriminate E.
Qed.

Lemma falsy_cases (x : JS.number) :
  JS.ToBoolean x = false -> is_nan x = false -> x = 0%float \/ x = (-0)%float.
Proof.
  unfold JS.ToBoolean. intros F N. rewrite N, orb_false_r in F.
  apply negb_false_iff in F. apply eqb_zero_cases. exact F.
Qed.

(** Subtracting [-0] or [+0] differs in the sign of a zero result at most,
    which [Math.max(0, _)] does not see. *)
Lemma max_sub_negative_zero (y : JS.number) :
  JS.Math_max 0 (y - (-0)) = JS.Math_max 0 (y - 0).
Proof.
  destruct (Prim2SF y) as [s|s| |s m e] eqn:E.
  - assert (Y : y = SF2Prim (S754_zero s)) by (rewrite <- E; symmetry; apply SF2Prim_Prim2SF).
    subst y. destruct s; reflexivity.
  - f_equal. apply Prim2SF_inj. rewrite !sub_spec, E. reflexivity.
  - f_equal. apply Prim2SF_inj. rewrite !sub_spec, E. reflexivity.
  - f_equal. apply Prim2SF_inj. rewrite !sub_spec, E. reflexivity.
Qed.

Lemma hundred_minus_default (v : option JS.number) :
  not_NaN v ->
  (100 - JS.or_default v 0 = 100 - absent_as_zero v)%float.
Proof.
  intros N. destruct v as [x|]; [|reflexivity].
  unfold JS.or_default, absent_as_zero.
  destruct (JS.ToBoolean x) eqn:T; [reflexivity|].
  destruct (falsy_cases x T (N x eq_refl)); subst x; reflexivity.
Qed.

Lemma max_minus_default (y : JS.number) (v : option JS.number) :
  not_NaN v ->
  JS.Math_max 0 (y - JS.or_default v 0) = JS.Math_max 0 (y - absent_as_zero v).
Proof.
  intros N. destruct v as [x|]; [|reflexivity].
  unfold JS.or_default, absent_as_zero.
  destruct (JS.ToBoolean x) eqn:T; [reflexivity|].
  destruct (falsy_cases x T (N x eq_refl)); subst x;
    [reflexivity | symmetry; apply max_sub_negative_zero].
Qed.

(** X1: the silt completion of the revised copy: for every soil object with
    silt absent, and sand and clay numbers or absent, the normalized silt is
    [max(0, 100 - sand - clay)] with an absent value taken as 0. *)
Theorem revised_silt_completion (s : Soil) :
  silt s = None -> not_NaN (sand s) -> not_NaN (clay s) ->
  silt (Revised.normalize (Some s))
  = Some (JS.Math_max 0 (100 - absent_as_zero (sand s) - absent_as_zero (clay s))).
Proof.
  intros E Ns Nc. unfold Revised.normalize. rewrite E. simpl.
  rewrite (hundred_minus_default _ Ns), (max_minus_default _ _ Nc). reflexivity.
Qed.

Lemma revised_silt_completion_witness :
  silt (Revised.normalize (Some soil_30_20)) = Some 50%float.
Proof.
  apply (revised_silt_completion soil_30_20); [reflexivity | |];
    intros x E; injection E as <-; reflexivity.
Defined.

(** The other fields pass through, and a sample that has a silt value is
    left as it is. *)
Lemma revised_normalize_keeps (s : Soil) :
  let s' := Revised.normalize (Some s) in
  ph s' = ph s /\ soc s' = soc s /\ nitrogen s' = nitrogen s
  /\ sand s' = sand s /\ clay s' = clay s
  /\ (forall x, silt s = Some x -> s' = s).
Proof.
  unfold Revised.normalize. destruct (silt s) eqn:E; simpl; repeat split; auto.
  intros x H; discriminate H.
Qed.

(** ** Requests in flight *)

Section InFlight.

Context {A : Type}.

Lemma find_id_app (id : nat) (l1 l2 : list (nat * A)) :
  App.find_id id (l1 ++ l2) =
    match App.find_id id l1 with
    | Some a => Some a
    | None => App.find_id id l2
    end.
Proof.
  induction l1 as [|[i a] l1 IH]; simpl; [reflexivity|].
  destruct (i =? id)%nat; [reflexivity|exact IH].
Qed.

Lemma find_id_below (n id : nat) (l : list (nat * A)) :
  below n l -> n <= id -> App.find_id id l = None.
Proof.
  induction l as [|[i a] l IH]; intros B L; simpl; [reflexivity|].
  assert (i < n) by (apply (B i a); left; reflexivity).
  destruct (Nat.eqb_spec i id); [lia|].
  apply IH; [|exact L]. intros j b H'. apply (B j b). right. exact H'.
Qed.

Lemma find_id_same (id : nat) (a : A) (l : list (nat * A)) :
  App.find_id id ((id, a) :: l) = Some a.
Proof. simpl. rewrite Nat.eqb_refl. reflexivity. Qed.

Lemma find_id_last_some (id : nat) (a : A) (l : list (nat * A)) :
  App.find_id id (l ++ [(id, a)]) <> None.
Proof.
  rewrite find_id_app. destruct (App.find_id id l); [discriminate|].
  rewrite find_id_same. discriminate.
Qed.

Lemma remove_id_app (id : nat) (l1 l2 : list (nat * A)) :
  App.remove_id id (l1 ++ l2) = (App.remove_id id l1 ++ App.remove_id id l2)%list.
Proof.
  induction l1 as [|[i a] l1 IH]; simpl; [reflexivity|].
  destruct (i =? id)%nat; [exact IH|]. simpl. rewrite IH. reflexivity.
Qed.

Lemma remove_id_below (n id : nat) (l : list (nat * A)) :
  below n l -> n <= id -> App.remove_id id l = l.
Proof.
  induction l as [|[i a] l IH]; intros B L; simpl; [reflexivity|].
  assert (i < n) by (apply (B i a); left; reflexivity).
  destruct (Nat.eqb_spec i id); [lia|].
  rewrite IH; [reflexivity| |exact L]. intros j b H'. apply (B j b). right. exact H'.
Qed.

Lemma remove_id_in (id : nat) (l : list (nat * A)) (x : nat * A) :
  In x (App.remove_id id l) -> In x l.
Proof.
  induction l as [|[i a] l IH]; simpl; [tauto|].
  destruct (i =? id)%nat; simpl; intuition.
Qed.

Lemma below_remove (n id : nat) (l : list (nat * A)) :
  below n l -> below n (App.remove_id id l).
Proof. intros B i a H. apply (B i a). eapply remove_id_in. exact H. Qed.

Lemma below_nil (n : nat) : below n (@nil (nat * A)).
Proof. intros i a []. Qed.

End InFlight.

(** ** Reachable states *)

Lemma below_weaken {A : Type} (n m : nat) (l : list (nat * A)) :
  below n l -> n <= m -> below m l.
Proof. intros B L i a H. specialize (B i a H). lia. Qed.

Lemma below_snoc {A : Type} (n : nat) (a : A) (l : list (nat * A)) :
  below n l -> below (S n) (l ++ [(n, a)]).
Proof.
  intros B i b H. apply in_app_or in H. destruct H as [H|[H|[]]].
  - specialize (B i b H). lia.
  - inversion H; subst. lia.
Qed.

(** The initial state is fresh, by computation. *)
Ltac initial_is_fresh := repeat split; [simpl; lia | intros ? ? [] ..].

Lemma fresh_initial : fresh App.initial.
Proof. initial_is_fresh. Qed.

Lemma fresh_step publish (st : App.State) (ev : App.Event) :
  fresh st -> fresh (App.step publish st ev).
Proof.
  intros (P & BT & BS & BA). destruct ev as [val|id|id r|c|id r]; simpl.
  - unfold App.handleAddressChange. destruct (String.length val <? 3)%nat; simpl.
    + repeat split; simpl; assumption.
    + repeat split; simpl.
      * lia.
      * apply below_snoc. destruct (App.searchTimeout st) as [i|];
          [destruct (i =? 0)%nat; [|apply below_remove]|]; exact BT.
      * eapply below_weaken; [exact BS|lia].
      * eapply below_weaken; [exact BA|lia].
  - unfold App.timer_fires. destruct (App.find_id id (App.timers st)) as [val|] eqn:E; simpl.
    + repeat split; simpl; [exact P|apply below_remove; exact BT| |exact BA].
      intros i a H. apply in_app_or in H. destruct H as [H|[H|[]]]; [exact (BS i a H)|].
      inversion H; subst.
      destruct (Nat.lt_ge_cases i (App.next_id st)) as [L|L]; [exact L|].
      rewrite (find_id_below _ _ _ BT L) in E. discriminate E.
    + repeat split; simpl; assumption.
  - unfold App.search_settles. destruct (App.find_id id (App.searches st)) as [q|]; simpl.
    + destruct (match r with App.SearchRejected => None | App.SearchJson b => App.ranked q b end);
        repeat split; simpl; try assumption; apply below_remove; exact BS.
    + repeat split; simpl; assumption.
  - repeat split; simpl.
    + lia.
    + eapply below_weaken; [exact BT|lia].
    + eapply below_weaken; [exact BS|lia].
    + apply below_snoc. exact BA.
  - unfold App.analysis_settles. destruct (App.find_id id (App.analyses st)); simpl.
    + destruct r; repeat split; simpl; try assumption; apply below_remove; exact BA.
    + repeat split; simpl; assumption.
Qed.

(** Every state the event loop reaches from the initial one is fresh. *)
Lemma fresh_run publish (evs : list App.Event) : forall st,
  fresh st -> fresh (App.run publish st evs).
Proof.
  induction evs as [|ev evs IH]; intros st F; simpl; [exact F|].
  apply IH. apply fresh_step. exact F.
Qed.

(** ** A failed analysis fetch *)

Section Analysis.

Variable publish : JS.number -> JS.number -> string -> Props -> AnalysisData -> FieldData.

(** Starting a fetch publishes nothing. *)
Lemma fetch_start_keeps_result (c : App.Click) (st : App.State) :
  App.fieldData (App.fetchAnalysisFromAzure c st) = App.fieldData st
  /\ App.loading (App.fetchAnalysisFromAzure c st) = true
  /\ App.network (App.fetchAnalysisFromAzure c st)
     = (App.network st ++ [App.AnalysisRequest (App.click_lat c) (App.click_lon c)])%list.
Proof. repeat split. Qed.

(** C8: when an analysis fetch in flight fails (network error, non-success
    response or unreadable body), the handler clears [loading], alerts
    "Analysis failed.", sends no further request, and leaves the published
    [fieldData] as it was. *)
Theorem C8_failed_fetch_keeps_result (st : App.State) (id : nat) (c : App.Click)
    (f : App.Failure) :
  App.find_id id (App.analyses st) = Some c ->
  let st' := App.analysis_settles publish id (App.Failed f) st in
  App.loading st' = false
  /\ App.alerts st' = (App.alerts st ++ ["Analysis failed."])%list
  /\ App.fieldData st' = App.fieldData st
  /\ App.network st' = App.network st
  /\ App.analyses st' = App.remove_id id (App.analyses st)
  /\ App.timers st' = App.timers st
  /\ App.searches st' = App.searches st.
Proof.
  intros E. unfold App.analysis_settles. rewrite E. simpl. repeat split.
Qed.

(** A click whose fetch fails, from any state: one request, one alert, and
    the result published before is still there. *)
Lemma click_then_failure (st : App.State) (c : App.Click) (f : App.Failure) :
  let st' := App.run publish st
               [App.AnalyzeClick c; App.AnalysisSettles (App.next_id st) (App.Failed f)] in
  App.fieldData st' = App.fieldData st
  /\ App.loading st' = false
  /\ App.alerts st' = (App.alerts st ++ ["Analysis failed."])%list
  /\ App.network st'
     = (App.network st ++ [App.AnalysisRequest (App.click_lat c) (App.click_lon c)])%list.
Proof.
  simpl. unfold App.analysis_settles. simpl.
  destruct (App.find_id (App.next_id st) (App.analyses st ++ [(App.next_id st, c)])) eqn:E.
  - simpl. repeat split.
  - exfalso. exact (find_id_last_some _ _ _ E).
Qed.

(** ** Two clicks, answered in the other order *)

(** Whatever response settles is published, whichever click it belongs to. *)
Lemma settled_result_is_published (st : App.State) (id : nat) (c : App.Click)
    (data : AnalysisData) :
  App.find_id id (App.analyses st) = Some c ->
  App.fieldData (App.analysis_settles publish id (App.Ok data) st) = Some (published publish c data).
Proof. intros E. unfold App.analysis_settles. rewrite E. reflexivity. Qed.

Lemma settled_keeps_others (st : App.State) (id : nat) (c : App.Click)
    (data : AnalysisData) :
  App.find_id id (App.analyses st) = Some c ->
  App.analyses (App.analysis_settles publish id (App.Ok data) st)
  = App.remove_id id (App.analyses st).
Proof. intros E. unfold App.analysis_settles. rewrite E. reflexivity. Qed.

(** C2, amended: after two clicks whose fetches resolve in the other order,
    the result of the second click is published when it arrives and the
    late result of the first click replaces it: the published record is
    that of the fetch that resolved last. *)
Theorem C2_last_resolved_is_published (st : App.State) (c1 c2 : App.Click)
    (d1 d2 : AnalysisData) :
  fresh st ->
  App.fieldData (App.run publish st (firstn 3 (late_first_result st c1 c2 d1 d2)))
    = Some (published publish c2 d2)
  /\ App.fieldData (App.run publish st (late_first_result st c1 c2 d1 d2))
    = Some (published publish c1 d1)
  /\ App.loading (App.run publish st (late_first_result st c1 c2 d1 d2)) = false.
Proof.
  intros (_ & _ & _ & B). set (n := App.next_id st).
  set (st2 := App.fetchAnalysisFromAzure c2 (App.fetchAnalysisFromAzure c1 st)).
  assert (F2 : App.find_id (S n) (App.analyses st2) = Some c2).
  { simpl. fold n. rewrite !find_id_app, (find_id_below n (S n) _ B) by lia. simpl.
    destruct (Nat.eqb_spec n (S n)); [lia|]. rewrite Nat.eqb_refl. reflexivity. }
  set (st3 := App.analysis_settles publish (S n) (App.Ok d2) st2).
  assert (A3 : App.analyses st3 = (App.analyses st ++ [(n, c1)])%list).
  { unfold st3. rewrite (settled_keeps_others _ _ _ _ F2). simpl. fold n.
    rewrite !remove_id_app, (remove_id_below n (S n) _ B) by lia. simpl.
    destruct (Nat.eqb_spec n (S n)); [lia|]. rewrite Nat.eqb_refl.
    rewrite app_nil_r. reflexivity. }
  assert (F1 : App.find_id n (App.analyses st3) = Some c1).
  { rewrite A3, find_id_app, (find_id_below n n _ B) by lia. apply find_id_same. }
  change (App.run publish st (firstn 3 (late_first_result st c1 c2 d1 d2))) with st3.
  change (App.run publish st (late_first_result st c1 c2 d1 d2))
    with (App.analysis_settles publish n (App.Ok d1) st3).
  split; [apply (settled_result_is_published _ _ _ _ F2)|].
  split; [apply (settled_result_is_published _ _ _ _ F1)|].
  unfold App.analysis_settles at 1. rewrite F1. reflexivity.
Qed.

End Analysis.

Lemma C8_witness :
  let st := App.fetchAnalysisFromAzure click_corn App.initial in
  let st' := App.analysis_settles Revised.publish 1 (App.Failed (App.HttpError "Not Found")) st in
  App.loading st' = false
  /\ App.alerts st' = (App.alerts st ++ ["Analysis failed."])%list
  /\ App.fieldData st' = App.fieldData st
  /\ App.network st' = App.network st
  /\ App.analyses st' = App.remove_id 1 (App.analyses st)
  /\ App.timers st' = App.timers st
  /\ App.searches st' = App.searches st.
Proof.
  apply (C8_failed_fetch_keeps_result Revised.publish
           (App.fetchAnalysisFromAzure click_corn App.initial) 1 click_corn).
  reflexivity.
Defined.

(** C2, as stated, fails in both copies: click on a corn field, then on a
    soybean field; the soybean response arrives, then the corn response.
    The drawer ends on the corn field, the first click. *)
Lemma C2_counterexample :
  let evs := late_first_result App.initial click_corn click_soy response_30_20 empty_response in
  option_map cropName (App.fieldData (App.run Revised.publish App.initial evs)) = Some "Corn"
  /\ option_map cropName (App.fieldData (App.run Legacy.publish App.initial evs)) = Some "Corn"
  /\ option_map location (App.fieldData (App.run Revised.publish App.initial evs))
     = Some (App.click_lat click_corn, App.click_lon click_corn)
  /\ option_map cropName (App.fieldData (App.run Revised.publish App.initial evs))
     <> Some (App.click_crop click_soy).
Proof. repeat split. discriminate. Qed.

Lemma C2_witness :
  App.fieldData (App.run Revised.publish App.initial
     (firstn 3 (late_first_result App.initial click_corn click_soy response_30_20 empty_response)))
    = Some (published Revised.publish click_soy empty_response)
  /\ App.fieldData (App.run Revised.publish App.initial
       (late_first_result App.initial click_corn click_soy response_30_20 empty_response))
    = Some (published Revised.publish click_corn response_30_20)
  /\ App.loading (App.run Revised.publish App.initial
       (late_first_result App.initial click_corn click_soy response_30_20 empty_response)) = false.
Proof.
  apply (C2_last_resolved_is_published Revised.publish App.initial).
  initial_is_fresh.
Defined.

(** ** Address search *)

Lemma long_input (val : string) (st : App.State) :
  3 <= String.length val ->
  App.handleAddressChange val st =
    App.with_search st val (App.suggestions st) (App.showSuggestions st) true
      (Some (App.next_id st))
      (match App.searchTimeout st with
       | Some id => if (id =? 0)%nat then App.timers st else App.remove_id id (App.timers st)
       | None => App.timers st
       end ++ [(App.next_id st, val)])%list
      (S (App.next_id st)) (App.searches st) (App.network st).
Proof.
  intros L. unfold App.handleAddressChange.
  destruct (Nat.ltb_spec (String.length val) 3); [lia|reflexivity].
Qed.

(** A short input hides the dropdown and returns: the pending timer, the
    requests in flight and the stored suggestions stay as they are. *)
Lemma short_input (val : string) (st : App.State) :
  String.length val < 3 ->
  App.handleAddressChange val st =
    App.with_search st val (App.suggestions st) false (App.isSearching st)
      (App.searchTimeout st) (App.timers st) (App.next_id st)
      (App.searches st) (App.network st).
Proof.
  intros L. unfold App.handleAddressChange.
  destruct (Nat.ltb_spec (String.length val) 3); [reflexivity|lia].
Qed.

Lemma timer_fires_pending (id : nat) (val : string) (st : App.State) :
  App.find_id id (App.timers st) = Some val ->
  App.timer_fires id st =
    App.with_search st (App.address st) (App.suggestions st) (App.showSuggestions st)
      (App.isSearching st) (App.searchTimeout st) (App.remove_id id (App.timers st))
      (App.next_id st) (App.searches st ++ [(id, val)])%list
      (App.network st ++ [App.SearchRequest val])%list.
Proof. intros E. unfold App.timer_fires. rewrite E. reflexivity. Qed.

Lemma timer_fires_cancelled (id : nat) (st : App.State) :
  App.find_id id (App.timers st) = None -> App.timer_fires id st = st.
Proof. intros E. unfold App.timer_fires. rewrite E. reflexivity. Qed.

(** A response that settles is applied, whatever was asked since. *)
Lemma search_settles_applied (id : nat) (val : string) (body : App.SearchBody)
    (rk : list App.Suggestion) (st : App.State) :
  App.find_id id (App.searches st) = Some val ->
  App.ranked val body = Some rk ->
  App.search_settles id (App.SearchJson body) st =
    App.with_search st (App.address st) rk (0 <? List.length rk)%nat false
      (App.searchTimeout st) (App.timers st) (App.next_id st)
      (App.remove_id id (App.searches st)) (App.network st).
Proof. intros E R. unfold App.search_settles. rewrite E, R. reflexivity. Qed.

Lemma visible_after_settle (rk : list App.Suggestion) (st : App.State) :
  App.suggestions st = rk -> App.showSuggestions st = (0 <? List.length rk)%nat ->
  App.visible_suggestions st = rk.
Proof.
  intros S H. unfold App.visible_suggestions. rewrite S, H.
  destruct rk; reflexivity.
Qed.

Section Search.

Variable publish : JS.number -> JS.number -> string -> Props -> AnalysisData -> FieldData.

(** C7, amended: of two lookups in flight, the suggestions shown after both
    responses are those of the response that resolved last; when the earlier
    lookup's response resolves after the later one's has been applied, it
    replaces it. *)
Theorem C7_last_resolved_is_shown (st : App.State) (q1 q2 : string)
    (b1 b2 : App.SearchBody) (l1 l2 : list App.Suggestion) :
  fresh st ->
  3 <= String.length q1 -> 3 <= String.length q2 ->
  App.ranked q1 b1 = Some l1 -> App.ranked q2 b2 = Some l2 ->
  App.visible_suggestions (App.run publish st (firstn 5 (late_first_search st q1 q2 b1 b2))) = l2
  /\ App.visible_suggestions (App.run publish st (late_first_search st q1 q2 b1 b2)) = l1
  /\ App.suggestions (App.run publish st (late_first_search st q1 q2 b1 b2)) = l1.
Proof.
  intros (P & BT & BS & _) L1 L2 R1 R2. set (n := App.next_id st).
  set (tm := match App.searchTimeout st with
             | Some id => if (id =? 0)%nat then App.timers st
                          else App.remove_id id (App.timers st)
             | None => App.timers st
             end).
  assert (Btm : below n tm).
  { unfold tm. destruct (App.searchTimeout st) as [i|];
      [destruct (i =? 0)%nat; [|apply below_remove]|]; exact BT. }
  set (st1 := App.handleAddressChange q1 st).
  assert (T1 : App.timers st1 = (tm ++ [(n, q1)])%list)
    by (unfold st1; rewrite (long_input _ _ L1); reflexivity).
  assert (F1 : App.find_id n (App.timers st1) = Some q1).
  { rewrite T1, find_id_app, (find_id_below n n _ Btm) by lia. apply find_id_same. }
  set (st2 := App.timer_fires n st1).
  assert (E2 : App.timers st2 = tm /\ App.searchTimeout st2 = Some n
               /\ App.next_id st2 = S n
               /\ App.searches st2 = (App.searches st ++ [(n, q1)])%list).
  { unfold st2. rewrite (timer_fires_pending _ _ _ F1). simpl. rewrite T1.
    unfold st1. rewrite (long_input _ _ L1). simpl. fold n.
    rewrite remove_id_app, (remove_id_below n n _ Btm) by lia. simpl.
    rewrite Nat.eqb_refl, app_nil_r. auto. }
  destruct E2 as (T2 & Ref2 & N2 & S2).
  set (st3 := App.handleAddressChange q2 st2).
  assert (E3 : App.timers st3 = (tm ++ [(S n, q2)])%list
               /\ App.searches st3 = App.searches st2).
  { unfold st3. rewrite (long_input _ _ L2). simpl. rewrite Ref2, T2, N2.
    rewrite (remove_id_below n n _ Btm) by lia. destruct (n =? 0)%nat; auto. }
  destruct E3 as (T3 & S3).
  assert (F3 : App.find_id (S n) (App.timers st3) = Some q2).
  { rewrite T3, find_id_app, (find_id_below n (S n) _ Btm) by lia. apply find_id_same. }
  set (st4 := App.timer_fires (S n) st3).
  assert (S4 : App.searches st4 = ((App.searches st ++ [(n, q1)]) ++ [(S n, q2)])%list).
  { unfold st4. rewrite (timer_fires_pending _ _ _ F3). simpl. rewrite S3, S2. reflexivity. }
  assert (F4 : App.find_id (S n) (App.searches st4) = Some q2).
  { rewrite S4, !find_id_app, (find_id_below n (S n) _ BS) by lia. simpl.
    destruct (Nat.eqb_spec n (S n)); [lia|]. rewrite Nat.eqb_refl. reflexivity. }
  set (st5 := App.search_settles (S n) (App.SearchJson b2) st4).
  assert (E5 : App.suggestions st5 = l2
               /\ App.showSuggestions st5 = (0 <? List.length l2)%nat
               /\ App.searches st5 = (App.searches st ++ [(n, q1)])%list).
  { unfold st5. rewrite (search_settles_applied _ _ _ _ _ F4 R2). simpl.
    rewrite S4, !remove_id_app, (remove_id_below n (S n) _ BS) by lia. simpl.
    destruct (Nat.eqb_spec n (S n)); [lia|]. rewrite Nat.eqb_refl, app_nil_r. auto. }
  destruct E5 as (G5 & H5 & S5).
  assert (F5 : App.find_id n (App.searches st5) = Some q1).
  { rewrite S5, find_id_app, (find_id_below n n _ BS) by lia. apply find_id_same. }
  set (st6 := App.search_settles n (App.SearchJson b1) st5).
  assert (E6 : App.suggestions st6 = l1
               /\ App.showSuggestions st6 = (0 <? List.length l1)%nat).
  { unfold st6. rewrite (search_settles_applied _ _ _ _ _ F5 R1). auto. }
  destruct E6 as (G6 & H6).
  change (App.run publish st (firstn 5 (late_first_search st q1 q2 b1 b2))) with st5.
  change (App.run publish st (late_first_search st q1 q2 b1 b2)) with st6.
  split; [apply visible_after_settle; assumption|].
  split; [apply visible_after_settle; assumption|assumption].
Qed.

End Search.

Section ShortInput.

Variable publish : JS.number -> JS.number -> string -> Props -> AnalysisData -> FieldData.

(** C6: a short input returns before [clearTimeout]: the lookup scheduled
    for the older, longer query is still pending after it, fires, sends its
    request, and its suggestions are shown under the short input. *)
Theorem C6_pending_lookup_survives_short_input (st : App.State) (q val : string)
    (body : App.SearchBody) (rk : list App.Suggestion) :
  fresh st ->
  3 <= String.length q -> String.length val < 3 ->
  App.ranked q body = Some rk ->
  App.find_id (App.next_id st)
    (App.timers (App.run publish st (firstn 2 (short_after_long st q val body)))) = Some q
  /\ App.visible_suggestions (App.run publish st (firstn 2 (short_after_long st q val body))) = []
  /\ App.network (App.run publish st (firstn 3 (short_after_long st q val body)))
     = (App.network st ++ [App.SearchRequest q])%list
  /\ App.address (App.run publish st (short_after_long st q val body)) = val
  /\ App.visible_suggestions (App.run publish st (short_after_long st q val body)) = rk.
Proof.
  intros (P & BT & BS & _) L S R. set (n := App.next_id st).
  set (tm := match App.searchTimeout st with
             | Some id => if (id =? 0)%nat then App.timers st
                          else App.remove_id id (App.timers st)
             | None => App.timers st
             end).
  assert (Btm : below n tm).
  { unfold tm. destruct (App.searchTimeout st) as [i|];
      [destruct (i =? 0)%nat; [|apply below_remove]|]; exact BT. }
  set (st2 := App.handleAddressChange val (App.handleAddressChange q st)).
  assert (E2 : App.timers st2 = (tm ++ [(n, q)])%list
               /\ App.showSuggestions st2 = false
               /\ App.address st2 = val
               /\ App.searches st2 = App.searches st
               /\ App.network st2 = App.network st).
  { unfold st2. rewrite (short_input _ _ S), (long_input _ _ L). simpl. auto. }
  destruct E2 as (T2 & H2 & A2 & S2 & N2).
  assert (F2 : App.find_id n (App.timers st2) = Some q).
  { rewrite T2, find_id_app, (find_id_below n n _ Btm) by lia. apply find_id_same. }
  set (st3 := App.timer_fires n st2).
  assert (E3 : App.network st3 = (App.network st ++ [App.SearchRequest q])%list
               /\ App.searches st3 = (App.searches st ++ [(n, q)])%list
               /\ App.address st3 = val).
  { unfold st3. rewrite (timer_fires_pending _ _ _ F2). simpl. rewrite N2, S2, A2. auto. }
  destruct E3 as (N3 & S3 & A3).
  assert (F3 : App.find_id n (App.searches st3) = Some q).
  { rewrite S3, find_id_app, (find_id_below n n _ BS) by lia. apply find_id_same. }
  set (st4 := App.search_settles n (App.SearchJson body) st3).
  assert (E4 : App.suggestions st4 = rk
               /\ App.showSuggestions st4 = (0 <? List.length rk)%nat
               /\ App.address st4 = val).
  { unfold st4. rewrite (search_settles_applied _ _ _ _ _ F3 R). simpl. auto. }
  destruct E4 as (G4 & H4 & A4).
  change (App.run publish st (firstn 2 (short_after_long st q val body))) with st2.
  change (App.run publish st (firstn 3 (short_after_long st q val body))) with st3.
  change (App.run publish st (short_after_long st q val body)) with st4.
  repeat split; try assumption.
  - unfold App.visible_suggestions. rewrite H2. reflexivity.
  - apply visible_after_settle; assumption.
Qed.

(** The longer branch does cancel: after a second input of three characters
    or more, the first timer is gone and firing it sends nothing. *)
Lemma long_input_cancels_pending (st : App.State) (q q' : string) :
  fresh st ->
  3 <= String.length q -> 3 <= String.length q' ->
  App.run publish st
    [App.AddressInput q; App.AddressInput q'; App.TimerFires (App.next_id st)]
  = App.run publish st [App.AddressInput q; App.AddressInput q'].
Proof.
  intros (P & BT & _ & _) L L'. set (n := App.next_id st).
  set (tm := match App.searchTimeout st with
             | Some id => if (id =? 0)%nat then App.timers st
                          else App.remove_id id (App.timers st)
             | None => App.timers st
             end).
  assert (Btm : below n tm).
  { unfold tm. destruct (App.searchTimeout st) as [i|];
      [destruct (i =? 0)%nat; [|apply below_remove]|]; exact BT. }
  simpl. fold n. apply timer_fires_cancelled.
  rewrite (long_input _ _ L'), (long_input _ _ L). simpl. fold n. fold tm.
  destruct (Nat.eqb_spec n 0); [lia|].
  rewrite remove_id_app, (remove_id_below n n _ Btm) by lia. simpl.
  rewrite Nat.eqb_refl, app_nil_r.
  rewrite find_id_app, (find_id_below n n _ Btm) by lia.
  change (App.find_id n [(S n, q')]) with (if (S n =? n)%nat then Some q' else None).
  destruct (Nat.eqb_spec (S n) n); [lia|reflexivity].
Qed.

End ShortInput.

Example ranked_main_ave :
  App.ranked "Mai" (App.Items [main_ave])
  = Some [{| App.item := main_ave; App.rankScore := 100 |}].
Proof. reflexivity. Qed.

Example ranked_main_st :
  App.ranked "Main S" (App.Items [main_st])
  = Some [{| App.item := main_st; App.rankScore := 100 |}].
Proof. reflexivity. Qed.

Lemma C6_witness :
  App.find_id 1
    (App.timers (App.run Revised.publish App.initial
       (firstn 2 (short_after_long App.initial "Main S" "Ma" (App.Items [main_st])))))
    = Some "Main S"
  /\ App.visible_suggestions (App.run Revised.publish App.initial
       (firstn 2 (short_after_long App.initial "Main S" "Ma" (App.Items [main_st])))) = []
  /\ App.network (App.run Revised.publish App.initial
       (firstn 3 (short_after_long App.initial "Main S" "Ma" (App.Items [main_st]))))
     = (App.network App.initial ++ [App.SearchRequest "Main S"])%list
  /\ App.address (App.run Revised.publish App.initial
       (short_after_long App.initial "Main S" "Ma" (App.Items [main_st]))) = "Ma"
  /\ App.visible_suggestions (App.run Revised.publish App.initial
       (short_after_long App.initial "Main S" "Ma" (App.Items [main_st])))
     = [{| App.item := main_st; App.rankScore := 100 |}].
Proof.
  apply (C6_pending_lookup_survives_short_input Revised.publish App.initial
           "Main S" "Ma" (App.Items [main_st]));
    [initial_is_fresh | simpl; lia | simpl; lia | reflexivity].
Defined.

(** C7, as stated, fails: the lookup for "Mai" is in flight when "Main S"
    is typed; the response for "Main S" is applied, then the one for "Mai"
    arrives and is shown in its place. *)
Lemma C7_counterexample :
  App.visible_suggestions (App.run Revised.publish App.initial
     (firstn 5 (late_first_search App.initial "Mai" "Main S"
                  (App.Items [main_ave]) (App.Items [main_st]))))
    = [{| App.item := main_st; App.rankScore := 100 |}]
  /\ App.visible_suggestions (App.run Revised.publish App.initial
       (late_first_search App.initial "Mai" "Main S"
          (App.Items [main_ave]) (App.Items [main_st])))
    = [{| App.item := main_ave; App.rankScore := 100 |}]
  /\ App.visible_suggestions (App.run Legacy.publish App.initial
       (late_first_search App.initial "Mai" "Main S"
          (App.Items [main_ave]) (App.Items [main_st])))
    <> [{| App.item := main_st; App.rankScore := 100 |}].
Proof. repeat split. discriminate. Qed.

Lemma C7_witness :
  App.visible_suggestions (App.run Revised.publish App.initial
     (firstn 5 (late_first_search App.initial "Mai" "Main S"
                  (App.Items [main_ave]) (App.Items [main_st]))))
    = [{| App.item := main_st; App.rankScore := 100 |}]
  /\ App.visible_suggestions (App.run Revised.publish App.initial
       (late_first_search App.initial "Mai" "Main S"
          (App.Items [main_ave]) (App.Items [main_st])))
    = [{| App.item := main_ave; App.rankScore := 100 |}]
  /\ App.suggestions (App.run Revised.publish App.initial
       (late_first_search App.initial "Mai" "Main S"
          (App.Items [main_ave]) (App.Items [main_st])))
    = [{| App.item := main_ave; App.rankScore := 100 |}].
Proof.
  apply (C7_last_resolved_is_shown Revised.publish App.initial "Mai" "Main S"
           (App.Items [main_ave]) (App.Items [main_st]));
    [initial_is_fresh | simpl; lia | simpl; lia | reflexivity | reflexivity].
Defined.

(** ** Debounce *)

Section Debounce.

Variable publish : JS.number -> JS.number -> string -> Props -> AnalysisData -> FieldData.

(** X3: three keystrokes before any timer comes due send one request, for
    the last query: each keystroke clears the timer of the one before. *)
Theorem debounce_three_keystrokes (st : App.State) (q1 q2 q3 : string) :
  fresh st ->
  3 <= String.length q1 -> 3 <= String.length q2 -> 3 <= String.length q3 ->
  App.network (App.run publish st (three_keystrokes st q1 q2 q3))
  = (App.network st ++ [App.SearchRequest q3])%list.
Proof.
  intros (P & BT & _ & _) L1 L2 L3. set (n := App.next_id st).
  set (tm := match App.searchTimeout st with
             | Some id => if (id =? 0)%nat then App.timers st
                          else App.remove_id id (App.timers st)
             | None => App.timers st
             end).
  assert (Btm : below n tm).
  { unfold tm. destruct (App.searchTimeout st) as [i|];
      [destruct (i =? 0)%nat; [|apply below_remove]|]; exact BT. }
  set (st3 := App.handleAddressChange q3
                (App.handleAddressChange q2 (App.handleAddressChange q1 st))).
  assert (E3 : App.timers st3 = (tm ++ [(S (S n), q3)])%list
               /\ App.network st3 = App.network st).
  { unfold st3. rewrite (long_input _ _ L3), (long_input _ _ L2), (long_input _ _ L1).
    simpl. fold n. fold tm.
    destruct (Nat.eqb_spec n 0); [lia|].
    rewrite !remove_id_app, (remove_id_below n n _ Btm) by lia.
    rewrite (remove_id_below n (S n) _ Btm) by lia.
    cbn [App.remove_id]. rewrite !Nat.eqb_refl.
    cbn [App.remove_id]. rewrite !app_nil_r. auto. }
  destruct E3 as (T3 & N3).
  assert (F0 : App.find_id n (App.timers st3) = None).
  { rewrite T3, find_id_app, (find_id_below n n _ Btm) by lia.
    cbn [App.find_id]. destruct (Nat.eqb_spec (S (S n)) n); [lia|reflexivity]. }
  assert (F1 : App.find_id (S n) (App.timers st3) = None).
  { rewrite T3, find_id_app, (find_id_below n (S n) _ Btm) by lia.
    cbn [App.find_id]. destruct (Nat.eqb_spec (S (S n)) (S n)); [lia|reflexivity]. }
  assert (F2 : App.find_id (S (S n)) (App.timers st3) = Some q3).
  { rewrite T3, find_id_app, (find_id_below n (S (S n)) _ Btm) by lia. apply find_id_same. }
  change (App.run publish st (three_keystrokes st q1 q2 q3))
    with (App.timer_fires (S (S n)) (App.timer_fires (S n) (App.timer_fires n st3))).
  rewrite (timer_fires_cancelled _ _ F0), (timer_fires_cancelled _ _ F1),
    (timer_fires_pending _ _ _ F2).
  simpl. rewrite N3. reflexivity.
Qed.

End Debounce.

Lemma debounce_three_keystrokes_witness :
  App.network (App.run Revised.publish App.initial
                 (three_keystrokes App.initial "Mai" "Main" "Main S"))
  = (App.network App.initial ++ [App.SearchRequest "Main S"])%list.
Proof.
  apply (debounce_three_keystrokes Revised.publish App.initial "Mai" "Main" "Main S");
    [initial_is_fresh | simpl; lia | simpl; lia | simpl; lia].
Defined.

(** ** The current year's history entry *)

Lemma get_set_year (y : Z) (e : HistoryEntry) (h : History) :
  get_year y (set_year y e h) = Some e.
Proof.
  induction h as [|[y' e'] h IH]; simpl.
  - rewrite Z.eqb_refl. reflexivity.
  - destruct (Z.eqb_spec y' y) as [->|N]; simpl.
    + rewrite Z.eqb_refl. reflexivity.
    + destruct (Z.eqb_spec y' y); [contradiction|exact IH].
Qed.

Lemma get_set_year_other (y y' : Z) (e : HistoryEntry) (h : History) :
  y' <> y -> get_year y' (set_year y e h) = get_year y' h.
Proof.
  intros N. induction h as [|[z e'] h IH]; simpl.
  - destruct (Z.eqb_spec y y'); [congruence|reflexivity].
  - destruct (Z.eqb_spec z y) as [->|Nz]; simpl.
    + destruct (Z.eqb_spec y y'); [congruence|reflexivity].
    + destruct (Z.eqb_spec z y'); [reflexivity|exact IH].
Qed.

(** X5: both copies publish the clicked field's crop as the entry of the current
    year, over whatever the response held for that year, and keep the
    response's other years. *)
Theorem current_year_entry_injected (lat lon : JS.number) (name : string)
    (props : Props) (data : AnalysisData) :
  get_year CURRENT_YEAR (history (Legacy.publish lat lon name props data))
    = Some (current_entry name props)
  /\ get_year CURRENT_YEAR (history (Revised.publish lat lon name props data))
    = Some (current_entry name props)
  /\ (forall y h, y <> CURRENT_YEAR -> data_history data = Some h ->
        get_year y (history (Legacy.publish lat lon name props data)) = get_year y h
        /\ get_year y (history (Revised.publish lat lon name props data)) = get_year y h).
Proof.
  split; [apply get_set_year|]. split; [apply get_set_year|].
  intros y h N E. unfold Legacy.publish, Revised.publish. simpl. rewrite E.
  split; apply get_set_year_other; exact N.
Qed.

(** ** The order of the plan *)

Ltac plan_parts :=
  match goal with
  | |- exists a b, [] = _ /\ _ => exists [], []
  | |- exists a b, [?x; ?y] = _ /\ _ => exists [x], [y]
  | |- exists a b, [nitrogen_item ?c] = _ /\ _ => exists [nitrogen_item c], []
  | |- exists a b, [ph_item ?c] = _ /\ _ => exists [], [ph_item c]
  end;
  split; [reflexivity|];
  split; first [left; reflexivity | right; eexists; reflexivity].

(** X6: in both copies the plan is the nitrogen recommendation, if any, then
    the pH recommendation, if any, and nothing else; an absent sample has
    an empty plan. *)
Theorem plan_nitrogen_before_ph (s : Soil) :
  (exists a b,
      Legacy.getFertilizerPlan (Some s) = (a ++ b)%list
      /\ (a = [] \/ exists c, a = [nitrogen_item c])
      /\ (b = [] \/ exists c, b = [ph_item c]))
  /\ (exists a b,
      Revised.getFertilizerPlan (Some s) = (a ++ b)%list
      /\ (a = [] \/ exists c, a = [nitrogen_item c])
      /\ (b = [] \/ exists c, b = [ph_item c]))
  /\ Legacy.getFertilizerPlan None = []
  /\ Revised.getFertilizerPlan None = [].
Proof.
  split; [|split; [|split; reflexivity]].
  - unfold Legacy.getFertilizerPlan, push_nitrogen.
    destruct (nitrogen s) as [n|]; [destruct (n <? 2)%float|];
      (destruct (ph s) as [p|]; [destruct (p <? 6)%float|]);
      cbn [app]; plan_parts.
  - unfold Revised.getFertilizerPlan, push_nitrogen.
    destruct (_ <? 2)%float; destruct (_ && _); cbn [app]; plan_parts.
Qed.

Example plan_low_nitrogen :
  Revised.getFertilizerPlan
    (Some {| ph := Some 6.5%float; soc := None; nitrogen := Some 1.5%float;
             sand := None; silt := None; clay := None |})
  = [nitrogen_item "1.50"].
Proof. vm_compute. reflexivity. Qed.

Example plan_low_ph :
  Revised.getFertilizerPlan
    (Some {| ph := Some 5.5%float; soc := None; nitrogen := Some 3%float;
             sand := None; silt := None; clay := None |})
  = [ph_item "5.5"].
Proof. vm_compute. reflexivity. Qed.

(** ** Ranking *)

Lemma insert_desc_in (x z : App.Suggestion) (l : list App.Suggestion) :
  In z (App.insert_desc x l) -> z = x \/ In z l.
Proof.
  induction l as [|y l IH]; simpl.
  - intros [E|[]]. left. symmetry. exact E.
  - destruct (App.rankScore x <? App.rankScore y)%Z; simpl.
    + intros [E|H]; [right; left; exact E|].
      destruct (IH H) as [E|H']; [left; exact E|right; right; exact H'].
    + intros [E|H]; [left; symmetry; exact E|right; exact H].
Qed.

Lemma insert_desc_descending (x : App.Suggestion) (l : list App.Suggestion) :
  descending l -> descending (App.insert_desc x l).
Proof.
  unfold descending. induction l as [|y l IH]; intros S; simpl.
  - constructor; constructor.
  - inversion S as [|y' l' Sl Fy]; subst.
    destruct (Z.ltb_spec (App.rankScore x) (App.rankScore y)).
    + constructor; [apply IH; exact Sl|].
      apply Forall_forall. intros z Hz.
      destruct (insert_desc_in _ _ _ Hz) as [->|Hz']; [lia|].
      rewrite Forall_forall in Fy. apply Fy. exact Hz'.
    + constructor; [exact S|].
      constructor; [lia|].
      rewrite Forall_forall in Fy. apply Forall_forall. intros z Hz.
      specialize (Fy z Hz). lia.
Qed.

Lemma sort_desc_descending (l : list App.Suggestion) : descending (App.sort_desc l).
Proof.
  induction l as [|x l IH]; simpl; [constructor|].
  apply insert_desc_descending. exact IH.
Qed.

Lemma sort_desc_in (z : App.Suggestion) (l : list App.Suggestion) :
  In z (App.sort_desc l) -> In z l.
Proof.
  induction l as [|x l IH]; simpl; [tauto|].
  intros H. destruct (insert_desc_in _ _ _ H) as [->|H']; [left; reflexivity|right; auto].
Qed.

Lemma firstn_in {A : Type} (k : nat) : forall (l : list A) (z : A),
  In z (firstn k l) -> In z l.
Proof.
  induction k as [|k IH]; intros l z H; simpl in H; [destruct H|].
  destruct l as [|x l]; [destruct H|].
  destruct H as [E|H]; [left; exact E|right; apply IH; exact H].
Qed.

Lemma firstn_descending (k : nat) (l : list App.Suggestion) :
  descending l -> descending (firstn k l).
Proof.
  unfold descending. revert l. induction k as [|k IH]; intros l S; simpl; [constructor|].
  destruct l as [|x l]; [constructor|].
  inversion S as [|x' l' Sl Fx]; subst. constructor; [apply IH; exact Sl|].
  rewrite Forall_forall in Fx. apply Forall_forall. intros z Hz.
  apply Fx. eapply firstn_in. exact Hz.
Qed.

Lemma map_rank_scores (val : string) (l : list App.Item) : forall r,
  App.map_rank val l = Some r ->
  forall z, In z r ->
    In (App.item z) l /\ (App.rankScore z = 0%Z \/ App.rankScore z = 100%Z).
Proof.
  induction l as [|it l IH]; simpl; intros r E z Hz.
  - injection E as <-. destruct Hz.
  - destruct (App.rank_item val it) as [s|] eqn:Es; [|discriminate].
    destruct (App.map_rank val l) as [r'|]; [|discriminate].
    injection E as <-. destruct Hz as [<-|Hz].
    + unfold App.rank_item in Es. destruct (App.display_name it); [|discriminate].
      injection Es as <-. simpl.
      split; [left; reflexivity|]. destruct (JS.startsWith _ _); auto.
    + destruct (IH r' eq_refl z Hz) as (Hi & Hs). split; [right; exact Hi|exact Hs].
Qed.

(** X4: the suggestions kept from a response: at most five, in descending order
    of score, each an entry of the response with score 0 or 100 (100 when
    its name starts with the query, letter case apart). *)
Theorem ranked_top_five (val : string) (l : list App.Item) (r : list App.Suggestion) :
  App.ranked val (App.Items l) = Some r ->
  List.length r <= 5
  /\ descending r
  /\ (forall z, In z r ->
        In (App.item z) l /\ (App.rankScore z = 0%Z \/ App.rankScore z = 100%Z)).
Proof.
  unfold App.ranked. destruct (App.map_rank val l) as [r0|] eqn:E; [|discriminate].
  intros H. replace r with (firstn 5 (App.sort_desc r0)) by congruence.
  split; [apply firstn_le_length|].
  split; [apply firstn_descending, sort_desc_descending|].
  intros z Hz. apply (map_rank_scores val l r0 E).
  apply sort_desc_in. eapply firstn_in. exact Hz.
Qed.

Lemma ranked_top_five_witness :
  List.length [{| App.item := springfield; App.rankScore := 100 |};
               {| App.item := chicago; App.rankScore := 0 |}] <= 5
  /\ descending [{| App.item := springfield; App.rankScore := 100 |};
                 {| App.item := chicago; App.rankScore := 0 |}]
  /\ (forall z, In z [{| App.item := springfield; App.rankScore := 100 |};
                      {| App.item := chicago; App.rankScore := 0 |}] ->
        In (App.item z) [chicago; springfield]
        /\ (App.rankScore z = 0%Z \/ App.rankScore z = 100%Z)).
Proof.
  apply (ranked_top_five "123 Main" [chicago; springfield]). reflexivity.
Defined.

(** A response that is not an array, and one with an entry that has no
    [display_name], give no suggestion. *)
Lemma ranked_malformed (val : string) :
  App.ranked val App.NotArray = Some []
  /\ App.ranked val (App.Items [{| App.display_name := None; App.lat := ""; App.lon := "" |}]) = None.
Proof. split; reflexivity. Qed.

(** ** The health card *)

Lemma checks_label (v1 v2 v3 : option JS.number) :
  let h := close_tally (check_nitrogen v3 (check_soc v2 (check_ph v1 (100%float, [], [])))) in
  View.health_label (score h) = label_of_issues (List.length (issues h)).
Proof.
  unfold check_nitrogen, check_soc, check_ph, JS.lt.
  destruct v1 as [p|], v2 as [c|], v3 as [n|];
    repeat match goal with
           | |- context [if ?b then _ else _] => destruct b
           end;
    vm_compute; reflexivity.
Qed.

(** X7: the label of the health card tells how many issues it lists: "Excellent"
    with at most one, "Fair" with two, "Poor" with three.  It holds of what
    both copies publish for a response with a soil sample, and of the revised
    copy for one without; [src/App.jsx] then shows 0 and "Poor" with no issue
    listed. *)
Theorem health_label_counts_issues (lat lon : JS.number) (name : string) (props : Props)
    (s : Soil) (h : option History) (r : option (list Recommendation)) :
  label_counts_issues
    (View.health_card (Legacy.publish lat lon name props (response_with s h r)))
  /\ label_counts_issues
       (View.health_card (Revised.publish lat lon name props (response_with s h r)))
  /\ label_counts_issues
       (View.health_card (Revised.publish lat lon name props (response_without h r)))
  /\ View.health_card (Legacy.publish lat lon name props (response_without h r))
     = Some {| View.card_score := "0"; View.card_label := "Poor";
               View.card_strengths := []; View.card_issues := [] |}.
Proof.
  split; [|split; [|split]].
  - unfold label_counts_issues, View.health_card. simpl.
    rewrite length_map. apply checks_label.
  - unfold label_counts_issues, View.health_card. simpl.
    rewrite length_map. apply checks_label.
  - vm_compute. reflexivity.
  - vm_compute. reflexivity.
Qed.

(** ** The plan and the assessment *)

Ltac absurd_member :=
  repeat match goal with
         | H : In _ [] |- _ => destruct H
         | H : In _ (_ :: _) |- _ => destruct H as [H|H]
         | H : _ = _ |- _ => discriminate H
         | H : exists _, _ |- _ => destruct H as [? H]
         end.

Ltac member :=
  first [ eexists; simpl; auto; fail
        | eexists; simpl; right; auto; fail
        | eexists; simpl; right; right; auto; fail
        | simpl; auto; fail
        | simpl; right; auto; fail
        | simpl; right; right; auto ].

Lemma legacy_plan_and_issues (s : Soil) :
  let plan := Legacy.getFertilizerPlan (Some s) in
  let h := close_tally (Legacy.tally s) in
  (recommends_nitrogen plan <-> reports_low_nitrogen h)
  /\ (recommends_lime plan <-> reports_acidic h).
Proof.
  unfold recommends_nitrogen, recommends_lime, reports_low_nitrogen, reports_acidic.
  unfold Legacy.getFertilizerPlan, Legacy.tally, push_nitrogen,
    check_nitrogen, check_soc, check_ph, JS.lt.
  destruct (nitrogen s) as [n|]; [destruct (n <? 2)%float|];
    (destruct (ph s) as [p|]; [destruct (p <? 6)%float; [|destruct (7.5 <? p)%float]|]);
    (destruct (soc s) as [c|]; [destruct (c <? 15)%float|]);
    cbn [app deduct credit close_tally issues];
    (split; split; intros H; try (absurd_member; fail); member).
Qed.

Lemma revised_plan_and_issues (s : Soil) :
  let plan := Revised.getFertilizerPlan (Some s) in
  let h := close_tally (Revised.tally s) in
  (recommends_nitrogen plan <-> reports_low_nitrogen h)
  /\ (recommends_lime plan -> reports_acidic h).
Proof.
  unfold recommends_nitrogen, recommends_lime, reports_low_nitrogen, reports_acidic.
  unfold Revised.getFertilizerPlan, Revised.tally, push_nitrogen,
    check_nitrogen, check_soc, check_ph, JS.lt.
  destruct (JS.or_default (nitrogen s) 2.5 <? 2)%float;
    (destruct (JS.or_default (ph s) 6.5 <? 6)%float;
       [destruct (0 <? JS.or_default (ph s) 6.5)%float
       |destruct (7.5 <? JS.or_default (ph s) 6.5)%float]);
    destruct (JS.or_default (soc s) 20 <? 15)%float;
    cbn [app deduct credit close_tally issues andb];
    (split; [split|]; intros H; try (absurd_member; fail); member).
Qed.

(** X8: every recommendation of the plan answers an issue of the assessment, in
    both copies: nitrogen is recommended exactly when "Low Nitrogen" is
    reported, and lime only when acidic soil is.  In [src/App.jsx] acidic
    soil always gets lime; in the revised copy a pH below zero is reported
    as acidic and gets none. *)
Theorem plan_answers_issues (s : Soil) :
  (forall h, Legacy.getHealthScore (Some s) = Some h ->
     (recommends_nitrogen (Legacy.getFertilizerPlan (Some s)) <-> reports_low_nitrogen h)
     /\ (recommends_lime (Legacy.getFertilizerPlan (Some s)) <-> reports_acidic h))
  /\ (forall h, Revised.getHealthScore (Some s) = Some h ->
     (recommends_nitrogen (Revised.getFertilizerPlan (Some s)) <-> reports_low_nitrogen h)
     /\ (recommends_lime (Revised.getFertilizerPlan (Some s)) -> reports_acidic h))
  /\ (forall h, Revised.getHealthScore (Some soil_negative_ph) = Some h ->
     reports_acidic h /\ Revised.getFertilizerPlan (Some soil_negative_ph) = []).
Proof.
  split; [|split].
  - intros h E. injection E as <-. apply legacy_plan_and_issues.
  - intros h E. injection E as <-. apply revised_plan_and_issues.
  - intros h E. injection E as <-. split; [|reflexivity].
    exists (-1)%float. left. reflexivity.
Qed.

Lemma plan_answers_issues_witness :
  recommends_nitrogen (Legacy.getFertilizerPlan (Some soil_n15))
  <-> reports_low_nitrogen (close_tally (Legacy.tally soil_n15)).
Proof.
  apply (proj1 (plan_answers_issues soil_n15) (close_tally (Legacy.tally soil_n15)) eq_refl).
Defined.

(** ** The timeline *)

Lemma insert_year_in (x z : Z * HistoryEntry) (l : list (Z * HistoryEntry)) :
  In z (View.insert_year x l) <-> z = x \/ In z l.
Proof.
  induction l as [|y l IH]; simpl.
  - split; [intros [E|[]]; left; symmetry; exact E|intros [E|[]]; left; symmetry; exact E].
  - destruct (fst x <? fst y)%Z; simpl; rewrite ?IH; intuition congruence.
Qed.

Lemma insert_year_length (x : Z * HistoryEntry) (l : list (Z * HistoryEntry)) :
  List.length (View.insert_year x l) = S (List.length l).
Proof.
  induction l as [|y l IH]; simpl; [reflexivity|].
  destruct (fst x <? fst y)%Z; simpl; [rewrite IH|]; reflexivity.
Qed.

Lemma insert_year_sorted (x : Z * HistoryEntry) (l : list (Z * HistoryEntry)) :
  StronglySorted (fun a b => (fst b <= fst a)%Z) l ->
  StronglySorted (fun a b => (fst b <= fst a)%Z) (View.insert_year x l).
Proof.
  induction l as [|y l IH]; intros S; simpl.
  - constructor; constructor.
  - inversion S as [|y' l' Sl Fy]; subst.
    destruct (Z.ltb_spec (fst x) (fst y)).
    + constructor; [apply IH; exact Sl|].
      apply Forall_forall. intros z Hz.
      apply insert_year_in in Hz. destruct Hz as [->|Hz']; [lia|].
      rewrite Forall_forall in Fy. apply Fy. exact Hz'.
    + constructor; [exact S|].
      constructor; [lia|].
      rewrite Forall_forall in Fy. apply Forall_forall. intros z Hz.
      specialize (Fy z Hz). lia.
Qed.

Lemma sort_years_in (z : Z * HistoryEntry) (h : History) :
  In z (View.sort_years h) <-> In z h.
Proof.
  induction h as [|x h IH]; simpl; [tauto|].
  rewrite insert_year_in, IH. intuition congruence.
Qed.

Lemma sort_years_length (h : History) : List.length (View.sort_years h) = List.length h.
Proof.
  induction h as [|x h IH]; simpl; [reflexivity|].
  rewrite insert_year_length, IH. reflexivity.
Qed.

Lemma sort_years_sorted (h : History) :
  StronglySorted (fun a b => (fst b <= fst a)%Z) (View.sort_years h).
Proof.
  induction h as [|x h IH]; simpl; [constructor|].
  apply insert_year_sorted. exact IH.
Qed.

Lemma timeline_row_year (colors : list (Z * string)) (ye : Z * HistoryEntry) :
  View.row_year (View.timeline_row colors ye) = fst ye
  /\ View.row_crop (View.timeline_row colors ye) = crop (snd ye).
Proof. destruct ye as [y e]. split; reflexivity. Qed.

Lemma rows_descending (colors : list (Z * string)) (l : list (Z * HistoryEntry)) :
  StronglySorted (fun a b => (fst b <= fst a)%Z) l ->
  years_descending (map (View.timeline_row colors) l).
Proof.
  unfold years_descending. induction 1 as [|x l S IH F]; simpl; constructor; [exact IH|].
  apply Forall_forall. intros row Hr. apply in_map_iff in Hr.
  destruct Hr as (ye & <- & Hy). rewrite Forall_forall in F. specialize (F ye Hy).
  rewrite !(proj1 (timeline_row_year colors _)). exact F.
Qed.

Lemma set_year_in (y : Z) (e : HistoryEntry) (h : History) : In (y, e) (set_year y e h).
Proof.
  induction h as [|[y' e'] h IH]; simpl; [left; reflexivity|].
  destruct (y' =? y)%Z; [left; reflexivity|right; exact IH].
Qed.

Lemma timeline_of_history (colors : list (Z * string)) (fd : FieldData)
    (name : string) (props : Props) (h : History) :
  history fd = set_year CURRENT_YEAR (current_entry name props) h ->
  years_descending (View.timeline colors fd)
  /\ List.length (View.timeline colors fd) = List.length (history fd)
  /\ (exists row, In row (View.timeline colors fd)
        /\ View.row_year row = CURRENT_YEAR /\ View.row_crop row = name).
Proof.
  intros E. unfold View.timeline. split; [apply rows_descending, sort_years_sorted|].
  split; [rewrite length_map; apply sort_years_length|].
  exists (View.timeline_row colors (CURRENT_YEAR, current_entry name props)).
  split; [|split; reflexivity].
  apply in_map. apply sort_years_in. rewrite E. apply set_year_in.
Qed.

(** X9: the crop rotation timeline of a published record, in both copies and
    with either color table: its rows are in descending order of year, one
    for each year of the record's history, and one of them is the current
    year's, showing the name of the clicked crop. *)
Theorem timeline_descending_with_current_year (colors : list (Z * string))
    (lat lon : JS.number) (name : string) (props : Props) (data : AnalysisData) :
  let legacy := Legacy.publish lat lon name props data in
  let revised := Revised.publish lat lon name props data in
  (years_descending (View.timeline colors legacy)
   /\ List.length (View.timeline colors legacy) = List.length (history legacy)
   /\ exists row, In row (View.timeline colors legacy)
        /\ View.row_year row = CURRENT_YEAR /\ View.row_crop row = name)
  /\ (years_descending (View.timeline colors revised)
   /\ List.length (View.timeline colors revised) = List.length (history revised)
   /\ exists row, In row (View.timeline colors revised)
        /\ View.row_year row = CURRENT_YEAR /\ View.row_crop row = name).
Proof.
  split;
    apply (timeline_of_history colors _ name props
             (match data_history data with Some h => h | None => [] end));
    reflexivity.
Qed.

(** ** The crop tables *)

Lemma assoc_in (k : Z) (v : string) (table : list (Z * string)) :
  View.assoc k table = Some v -> In (k, v) table.
Proof.
  induction table as [|[k' v'] table IH]; simpl; [discriminate|].
  destruct (Z.eqb_spec k' k) as [->|N].
  - intros E. injection E as <-. left. reflexivity.
  - intros E. right. apply IH. exact E.
Qed.

Lemma legacy_names_proper : Forall proper_name LegacyView.CROP_LOOKUP.
Proof. repeat constructor; discriminate. Qed.

Lemma revised_names_proper : Forall proper_name RevisedView.CROP_LOOKUP.
Proof. repeat constructor; discriminate. Qed.

Lemma cropName_unknown (table : list (Z * string)) (props : Props) :
  Forall proper_name table ->
  (View.cropName_of table props = "Unknown"
   <-> forall c, CROP_TYPE props = Some c -> View.assoc c table = None).
Proof.
  intros F. unfold View.cropName_of. destruct (CROP_TYPE props) as [c|].
  - destruct (View.assoc c table) as [v|] eqn:E.
    + pose proof (assoc_in _ _ _ E) as I.
      rewrite Forall_forall in F. destruct (F _ I) as (N1 & N2).
      simpl in N1, N2. split.
      * intros H. destruct v; simpl in H; congruence.
      * intros H. specialize (H c eq_refl). congruence.
    + split; [intros _ c' E'; congruence|reflexivity].
  - split; [intros _ c E; discriminate|reflexivity].
Qed.

(** X10: the title of the popup is "Unknown" exactly when the clicked feature
    has no crop code or one that [CROP_LOOKUP] does not list, with the table
    of either copy: no entry of the tables is empty or reads "Unknown". *)
Theorem popup_title_unknown (props : Props) :
  (View.cropName_of LegacyView.CROP_LOOKUP props = "Unknown"
   <-> forall c, CROP_TYPE props = Some c -> View.assoc c LegacyView.CROP_LOOKUP = None)
  /\ (View.cropName_of RevisedView.CROP_LOOKUP props = "Unknown"
   <-> forall c, CROP_TYPE props = Some c -> View.assoc c RevisedView.CROP_LOOKUP = None).
Proof.
  split; apply cropName_unknown; [apply legacy_names_proper|apply revised_names_proper].
Qed.

(** X11: every color of the legend has its text, in both copies: each code of
    [cropColors] is a code of [CROP_LOOKUP]. *)
Theorem legend_is_labelled :
  Forall labelled (View.legend LegacyView.CROP_LOOKUP LegacyView.cropColors)
  /\ Forall labelled (View.legend RevisedView.CROP_LOOKUP RevisedView.cropColors).
Proof.
  split; repeat constructor; (eexists; split; [reflexivity|discriminate]).
Qed.

(** ** The order of the suggestions *)

Lemma map_rank_scored (val : string) (l : list App.Item) : forall r,
  App.map_rank val l = Some r -> r = map (scored val) l.
Proof.
  induction l as [|it l IH]; simpl; intros r E.
  - injection E as <-. reflexivity.
  - destruct (App.rank_item val it) as [s|] eqn:Es; [|discriminate].
    destruct (App.map_rank val l) as [r'|]; [|discriminate].
    injection E as <-. rewrite (IH r' eq_refl). f_equal.
    unfold App.rank_item in Es. unfold scored, name_starts_with.
    destruct (App.display_name it); [|discriminate].
    injection Es as <-. destruct (JS.startsWith _ _); reflexivity.
Qed.

Lemma map_rank_throws (val : string) (l : list App.Item) :
  App.map_rank val l = None <-> exists it, In it l /\ App.display_name it = None.
Proof.
  induction l as [|it l IH]; simpl.
  - split; [discriminate|intros (it & [] & _)].
  - unfold App.rank_item at 1. destruct (App.display_name it) as [name|] eqn:D.
    + destruct (App.map_rank val l) as [r|].
      * split; [discriminate|]. intros (it' & [<-|H] & N); [congruence|].
        assert (X : Some r = None) by (apply IH; exists it'; auto). discriminate X.
      * split; [|reflexivity]. intros _. destruct (proj1 IH eq_refl) as (it' & H & N).
        exists it'. auto.
    + split; [|reflexivity]. intros _. exists it. auto.
Qed.






(** ** The soil card *)

Lemma legacy_soil_card_throws (s : Soil) :
  LegacyView.soil_card s = None <-> lacks_a_field s.
Proof.
  unfold LegacyView.soil_card, lacks_a_field, View.toFixed_of.
  destruct (sand s), (silt s), (clay s), (ph s), (soc s), (nitrogen s);
    split; intros H; try discriminate H; try tauto;
    repeat (destruct H as [H|H]; try discriminate H); discriminate H.
Qed.

(** [toFixed] never gives the empty string. *)
Lemma digits_not_empty (n : Z) : JS.digits n <> "".
Proof.
  unfold JS.digits, NilZero.string_of_uint.
  destruct (N.to_uint (Z.to_N n)); simpl; discriminate.
Qed.

Lemma append_not_empty (a b : string) : b <> "" -> a ++ b <> "".
Proof. destruct a; simpl; [auto|discriminate]. Qed.

Lemma fixed_digits_not_empty (n : Z) (f : nat) : JS.fixed_digits n f <> "".
Proof.
  unfold JS.fixed_digits. destruct f; [apply digits_not_empty|].
  apply append_not_empty. discriminate.
Qed.

Lemma toFixed_not_empty (x : JS.number) (f : nat) : JS.toFixed x f <> "".
Proof.
  unfold JS.toFixed. destruct (Prim2SF x) as [s|s| |s m e].
  - apply fixed_digits_not_empty.
  - destruct s; discriminate.
  - discriminate.
  - apply append_not_empty. destruct (abs x <? 1e21)%float.
    + apply fixed_digits_not_empty.
    + unfold JS.toString_large. destruct (JS.shortest _ _ _ _ _) as [[s' k] n].
      apply append_not_empty. discriminate.
Qed.

Lemma toFixed_or_shown (v : option JS.number) (f : nat) (d : string) :
  RevisedView.toFixed_or v f d = shown v f d.
Proof.
  unfold RevisedView.toFixed_or, View.toFixed_of, View.or_string, shown.
  destruct v as [x|]; [|reflexivity].
  pose proof (toFixed_not_empty x f) as N.
  destruct (JS.toFixed x f); [contradiction N; reflexivity|reflexivity].
Qed.

(** X13: in [src/App.jsx] rendering the soil card of a published record throws
    exactly when the response had a soil sample that lacks one of the six
    fields, each being formatted as received.  In the revised copy the card
    renders for every response: each field is shown formatted, a zero or
    [NaN] too, the fallback text standing only for an absent field, and
    silt is never absent. *)
Theorem soil_card_needs_every_field (lat lon : JS.number) (name : string)
    (props : Props) (data : AnalysisData) :
  (LegacyView.drawer_soil (Legacy.publish lat lon name props data) = None
   <-> exists s, data_soil data = Some s /\ lacks_a_field s)
  /\ exists s x,
       soil (Revised.publish lat lon name props data) = Some s
       /\ silt s = Some x
       /\ RevisedView.drawer_soil (Revised.publish lat lon name props data)
          = Some (Some (soil_texts s)).
Proof.
  split.
  - unfold LegacyView.drawer_soil. simpl. destruct (data_soil data) as [s|].
    + destruct (LegacyView.soil_card s) eqn:E.
      * split; [discriminate|]. intros (s' & Es & L). injection Es as <-.
        apply legacy_soil_card_throws in L. congruence.
      * split; [|reflexivity]. intros _. exists s. split; [reflexivity|].
        apply legacy_soil_card_throws. exact E.
    + split; [discriminate|]. intros (s & Es & _). discriminate Es.
  - assert (S : exists x, silt (Revised.normalize (data_soil data)) = Some x).
    { unfold Revised.normalize.
      destruct (silt match data_soil data with Some s => s | None => Revised.default_soil end)
        as [x|] eqn:E; [exists x; exact E|simpl; eauto]. }
    destruct S as (x & S). exists (Revised.normalize (data_soil data)), x.
    split; [reflexivity|]. split; [exact S|].
    unfold RevisedView.drawer_soil, RevisedView.soil_card, soil_texts. simpl.
    rewrite !toFixed_or_shown. reflexivity.
Qed.

(** X14: for a response without a soil sample the revised copy shows the sample
    it puts in its place: "Loam" texture, a health score of 100 labelled
    "Excellent" with no issue, the soil card with silt 40.0%, and an empty
    plan; [src/App.jsx] shows "Unknown" texture and no soil card. *)
Theorem missing_soil_shows_default (lat lon : JS.number) (name : string) (props : Props)
    (h : option History) (r : option (list Recommendation)) :
  let revised := Revised.publish lat lon name props (response_without h r) in
  let legacy := Legacy.publish lat lon name props (response_without h r) in
  texture revised = "Loam"
  /\ View.health_card revised = Some default_health_card
  /\ RevisedView.drawer_soil revised = Some (Some default_soil_texts)
  /\ fertilizerPlan revised = []
  /\ texture legacy = "Unknown"
  /\ LegacyView.drawer_soil legacy = Some None.
Proof. repeat split; vm_compute; reflexivity. Qed.

(** ** Every state of the page *)

Lemma find_id_in {A : Type} (id : nat) (a : A) (l : list (nat * A)) :
  App.find_id id l = Some a -> In (id, a) l.
Proof.
  induction l as [|[i b] l IH]; simpl; [discriminate|].
  destruct (Nat.eqb_spec i id) as [->|N].
  - intros E. injection E as <-. left. reflexivity.
  - intros E. right. apply IH. exact E.
Qed.

Lemma tracked_remove {A : Type} (ref : option nat) (id : nat) (l : list (nat * A)) :
  tracked ref l -> tracked ref (App.remove_id id l).
Proof.
  intros [->|(i & x & -> & E)]; [left; reflexivity|].
  simpl. destruct (i =? id)%nat; [left; reflexivity|].
  right. exists i, x. auto.
Qed.

Lemma tracked_replace {A : Type} (ref : option nat) (n : nat) (x : A) (l : list (nat * A)) :
  tracked ref l ->
  tracked (Some n)
    (match ref with Some id => App.remove_id id l | None => l end ++ [(n, x)]).
Proof.
  intros [->|(i & y & -> & ->)].
  - right. exists n, x. destruct ref; auto.
  - right. exists n, x. simpl. rewrite Nat.eqb_refl. auto.
Qed.

Lemma tracked_cleared {A : Type} (ref : option nat) (l : list (nat * A)) :
  tracked ref l ->
  tracked ref (match ref with Some id => App.remove_id id l | None => l end).
Proof.
  intros [->|(i & y & -> & ->)]; [left; destruct ref; reflexivity|].
  left. simpl. rewrite Nat.eqb_refl. reflexivity.
Qed.

Lemma tracked_length {A : Type} (ref : option nat) (l : list (nat * A)) :
  tracked ref l -> List.length l <= 1.
Proof. intros [->|(i & x & -> & _)]; simpl; lia. Qed.

Section Page.

Variable publish : JS.number -> JS.number -> string -> Props -> AnalysisData -> FieldData.
Variable lookup : list (Z * string).
Variable parseFloat : string -> JS.number.
Variable accepts : JS.number -> JS.number -> bool.

(** What holds of the initial state and is kept by every event holds of
    every state the page reaches. *)
Lemma run_keeps (P : Ui.State -> Prop) :
  (forall st ev, P st -> P (Ui.step publish lookup parseFloat accepts st ev)) ->
  forall evs st, P st -> P (Ui.run publish lookup parseFloat accepts st evs).
Proof.
  intros K. induction evs as [|ev evs IH]; intros st H; simpl; [exact H|].
  apply IH. apply K. exact H.
Qed.

(** *** One marker, one popup *)

Lemma place_marker_tracked (lat lon : JS.number) (st : Ui.State) :
  tracked (Ui.marker_current st) (Ui.markers st) ->
  let st' := fst (Ui.place_marker accepts lat lon st) in
  tracked (Ui.marker_current st') (Ui.markers st')
  /\ Ui.popup_current st' = Ui.popup_current st /\ Ui.popups st' = Ui.popups st.
Proof.
  intros T. unfold Ui.place_marker. destruct (accepts lon lat); simpl.
  - split; [apply tracked_replace; exact T|auto].
  - split; [|auto]. destruct T as [E|(i & x & E & R)].
    + left. rewrite E. destruct (Ui.marker_current st); reflexivity.
    + left. rewrite E, R. simpl. rewrite Nat.eqb_refl. reflexivity.
Qed.

Lemma step_tracked (st : Ui.State) (ev : Ui.Event) :
  tracked_refs st -> tracked_refs (Ui.step publish lookup parseFloat accepts st ev).
Proof.
  unfold tracked_refs. intros (M & P). destruct ev; simpl; auto.
  - (* MapLoaded *)
    destruct (Ui.clickable st); [auto|]. unfold Ui.map_loaded.
    destruct (Ui.map_current st); simpl; [|auto].
    destruct urlAddress as [[|c q]|]; simpl; auto.
  - (* AutoSettles *)
    unfold Ui.auto_settles. destruct (Ui.auto st); [|auto].
    destruct r as [|[|[|it l]]]; simpl; auto.
    destruct (Ui.map_current st); simpl; auto.
    destruct (place_marker_tracked (parseFloat (App.lat it)) (parseFloat (App.lon it)) st M)
      as (M' & -> & ->). auto.
  - (* FocusInput *)
    destruct (0 <? _)%nat; simpl; auto.
  - (* ClearInput *)
    destruct (App.address _); [auto|]. destruct (App.isSearching _); simpl; auto.
  - (* SelectSuggestion *)
    destruct (nth_error _ i) as [sug|]; [|auto]. unfold Ui.selectSuggestion.
    destruct (App.display_name _) as [name|]; [|auto]. simpl.
    destruct (Ui.map_current st); simpl; [|auto].
    match goal with
    | |- context [Ui.place_marker accepts ?la ?lo ?s] =>
        pose proof (place_marker_tracked la lo s M) as K;
        destruct (Ui.place_marker accepts la lo s) as [st' done]
    end.
    simpl in K. destruct K as (M' & Ep & Eq).
    destruct (done && Ui.isMobile st'); simpl; rewrite ?Ep, ?Eq; auto.
  - (* MapClick *)
    destruct (Ui.clickable st); [|auto]. unfold Ui.handleMapClick.
    destruct (Ui.map_current st); simpl; [|auto].
    destruct features as [|props fs]; simpl; [auto|].
    split; [exact M|]. apply tracked_replace. exact P.
  - (* PopupClosed *)
    split; [exact M|]. apply tracked_remove. exact P.
  - (* AnalyzeButton *)
    destruct (App.find_id id (Ui.popups st)); simpl; auto.
  - (* ToggleMenu *)
    destruct (Ui.isMobile st); simpl; auto.
Qed.

(** X15: at most one marker and at most one popup are on the map in every state
    the page reaches, whatever coordinates the geocoder sends and whether or
    not the map library takes them: each is removed through its ref before
    the next one is made. *)
Theorem one_marker_and_one_popup (evs : list Ui.Event) :
  one_marker_one_popup (Ui.run publish lookup parseFloat accepts Ui.initial evs).
Proof.
  assert (T : tracked_refs (Ui.run publish lookup parseFloat accepts Ui.initial evs)).
  { apply (run_keeps tracked_refs); [apply step_tracked|].
    split; left; reflexivity. }
  destruct T as (M & P). split; eapply tracked_length; eassumption.
Qed.

(** *** The spinner and the loader *)

Lemma snoc_not_nil {A : Type} (l : list A) (x : A) : (l ++ [x])%list <> [].
Proof. destruct l; discriminate. Qed.

Lemma place_marker_app (lat lon : JS.number) (st : Ui.State) :
  let st' := fst (Ui.place_marker accepts lat lon st) in
  Ui.app st' = Ui.app st /\ Ui.auto st' = Ui.auto st
  /\ Ui.map_current st' = Ui.map_current st /\ Ui.clickable st' = Ui.clickable st
  /\ Ui.isMobile st' = Ui.isMobile st.
Proof. unfold Ui.place_marker. destruct (accepts lon lat); simpl; auto. Qed.

Lemma step_busy (st : Ui.State) (ev : Ui.Event) :
  busy_for_a_reason st -> busy_for_a_reason (Ui.step publish lookup parseFloat accepts st ev).
Proof.
  unfold busy_for_a_reason. intros (S & L). destruct ev; simpl; auto.
  - (* MapLoaded *)
    destruct (Ui.clickable st); [auto|]. unfold Ui.map_loaded.
    destruct (Ui.map_current st); simpl; [|auto].
    destruct urlAddress as [[|c q]|]; simpl; auto.
    split; [|exact L]. intros _. right. right. discriminate.
  - (* AutoSettles *)
    unfold Ui.auto_settles. destruct (Ui.auto st) eqn:E; [|rewrite E; auto]. simpl.
    split; [discriminate|].
    destruct r as [|[|[|it l]]]; simpl; auto.
    destruct (Ui.map_current st); simpl; auto.
    destruct (place_marker_app (parseFloat (App.lat it)) (parseFloat (App.lon it)) st)
      as (-> & _). exact L.
  - (* AddressInput *)
    unfold App.handleAddressChange. destruct (String.length val <? 3)%nat; simpl; [auto|].
    split; [|exact L]. intros _. left. apply snoc_not_nil.
  - (* TimerFires *)
    unfold App.timer_fires. destruct (App.find_id id _); simpl; [|auto].
    split; [|exact L]. intros _. right. left. apply snoc_not_nil.
  - (* SearchSettles *)
    unfold App.search_settles. destruct (App.find_id id _); simpl; [|auto].
    destruct (match r with App.SearchRejected => None | App.SearchJson b => App.ranked s b end);
      simpl; (split; [discriminate|exact L]).
  - (* FocusInput *)
    destruct (0 <? _)%nat; simpl; auto.
  - (* ClearInput *)
    destruct (App.address _); [auto|]. destruct (App.isSearching _) eqn:E; simpl; auto.
  - (* SelectSuggestion *)
    destruct (nth_error _ i) as [sug|]; [|auto]. unfold Ui.selectSuggestion.
    destruct (App.display_name _) as [name|]; [|auto]. simpl.
    destruct (Ui.map_current st); simpl; [|auto].
    match goal with
    | |- context [Ui.place_marker accepts ?la ?lo ?s] =>
        pose proof (place_marker_app la lo s) as K;
        destruct (Ui.place_marker accepts la lo s) as [st' done]
    end.
    simpl in K. destruct K as (Ea & Eu & _).
    destruct (done && Ui.isMobile st'); simpl; rewrite ?Ea, ?Eu; simpl; auto.
  - (* MapClick *)
    destruct (Ui.clickable st); [|auto]. unfold Ui.handleMapClick.
    destruct (Ui.map_current st); simpl; [|auto].
    destruct features as [|props fs]; simpl; auto.
  - (* AnalyzeButton *)
    destruct (App.find_id id (Ui.popups st)); simpl; [|auto].
    split; [exact S|]. intros _. apply snoc_not_nil.
  - (* AnalysisSettles *)
    unfold App.analysis_settles. destruct (App.find_id id _); simpl; [|auto].
    destruct r; simpl; (split; [exact S|discriminate]).
  - (* ToggleMenu *)
    destruct (Ui.isMobile st); simpl; auto.
Qed.

(** X16: in every state the page reaches the spinner of the search box is on
    only while a lookup is scheduled or a geocoder fetch is in flight, and
    the loader of the drawer only while an analysis fetch is in flight:
    neither is left on with nothing to wait for. *)
Theorem spinner_has_a_reason (evs : list Ui.Event) :
  busy_for_a_reason (Ui.run publish lookup parseFloat accepts Ui.initial evs).
Proof.
  apply (run_keeps busy_for_a_reason); [apply step_busy|].
  split; discriminate.
Qed.

(** *** Scheduled lookups *)

Lemma place_marker_shape (lat lon : JS.number) (st : Ui.State) :
  exists ref ms fl nid done,
    Ui.place_marker accepts lat lon st = (Ui.with_marker st ref ms fl nid, done).
Proof.
  unfold Ui.place_marker. destruct (accepts lon lat); repeat eexists.
Qed.

(** The events that leave the lookups as they are. *)
Ltac quiet_event st :=
  repeat first
    [ progress simpl
    | match goal with
      | |- context [if Ui.clickable st then _ else _] => destruct (Ui.clickable st)
      | |- context [Ui.map_loaded] => unfold Ui.map_loaded
      | |- context [Ui.auto_settles] => unfold Ui.auto_settles
      | |- context [Ui.selectSuggestion] => unfold Ui.selectSuggestion
      | |- context [Ui.handleMapClick] => unfold Ui.handleMapClick
      | |- context [match Ui.auto st with _ => _ end] => destruct (Ui.auto st)
      | |- context [if Ui.map_current st then _ else _] => destruct (Ui.map_current st)
      | |- context [if Ui.isMobile st then _ else _] => destruct (Ui.isMobile st)
      | |- context [match ?u with Some _ => _ | None => _ end] => destruct u
      | |- context [match ?r with App.SearchRejected => _ | App.SearchJson _ => _ end] =>
          destruct r as [|[|[|? ?]]]
      | |- context [match ?l with [] => _ | _ :: _ => _ end] => destruct l
      | |- context [match ?s with EmptyString => _ | String _ _ => _ end] => destruct s
      | |- context [Ui.place_marker accepts ?la ?lo ?s] =>
          destruct (place_marker_shape la lo s) as (? & ? & ? & ? & ? & ->)
      | |- context [if ?b then _ else _] => destruct b
      end ];
  auto.

Lemma step_one_timer (st : Ui.State) (ev : Ui.Event) :
  one_timer (Ui.app st) -> one_timer (Ui.app (Ui.step publish lookup parseFloat accepts st ev)).
Proof.
  unfold one_timer. intros (P & T).
  destruct ev;
    try (quiet_event st; fail).
  - (* AddressInput *)
    simpl. unfold App.handleAddressChange. destruct (String.length val <? 3)%nat; simpl; [auto|].
    split; [lia|]. right. exists (App.next_id (Ui.app st)), val.
    destruct T as [->|(i & v & -> & -> & Hi)].
    + destruct (App.searchTimeout _) as [j|]; [destruct (j =? 0)%nat|]; auto.
    + destruct (Nat.eqb_spec i 0); [lia|]. simpl. rewrite Nat.eqb_refl. auto.
  - (* TimerFires *)
    simpl. unfold App.timer_fires.
    destruct (App.find_id id _) eqn:E; simpl; [|auto].
    split; [exact P|]. destruct T as [T|(i & v & T & R & Hi)]; rewrite T; simpl.
    + auto.
    + destruct (i =? id)%nat; [auto|]. right. exists i, v. auto.
  - (* SearchSettles *)
    simpl. unfold App.search_settles. destruct (App.find_id id _); simpl; [|auto].
    destruct (match r with App.SearchRejected => None | App.SearchJson b => App.ranked s b end);
      simpl; auto.
  - (* AnalysisSettles *)
    simpl. unfold App.analysis_settles. destruct (App.find_id id _); simpl; [|auto].
    destruct r; simpl; auto.
Qed.

(** X17: in every state the page reaches at most one lookup is scheduled, however
    the input changed before: a keystroke that schedules one clears the one
    scheduled before it. *)
Theorem one_lookup_scheduled (evs : list Ui.Event) :
  List.length (App.timers (Ui.app (Ui.run publish lookup parseFloat accepts Ui.initial evs))) <= 1.
Proof.
  assert (T : one_timer (Ui.app (Ui.run publish lookup parseFloat accepts Ui.initial evs))).
  { apply (run_keeps (fun st => one_timer (Ui.app st))); [apply step_one_timer|].
    split; [simpl; lia|left; reflexivity]. }
  destruct T as (_ & [->|(i & v & -> & _)]); simpl; lia.
Qed.

Lemma step_long_queries (st : Ui.State) (ev : Ui.Event) :
  long_queries (Ui.app st) ->
  long_queries (Ui.app (Ui.step publish lookup parseFloat accepts st ev)).
Proof.
  unfold long_queries. intros (T & S & N).
  destruct ev;
    try (quiet_event st; fail).
  - (* AddressInput *)
    simpl. unfold App.handleAddressChange.
    destruct (Nat.ltb_spec (String.length val) 3); simpl; [auto|].
    split; [|auto]. intros i v H'. apply in_app_or in H'. destruct H' as [H'|[H'|[]]].
    + apply (T i v). destruct (App.searchTimeout _) as [j|]; [destruct (j =? 0)%nat|];
        try exact H'. eapply remove_id_in. exact H'.
    + inversion H'; subst. assumption.
  - (* TimerFires *)
    simpl. unfold App.timer_fires.
    destruct (App.find_id id _) as [val|] eqn:E; simpl; [|auto].
    apply find_id_in in E. specialize (T id val E) as L.
    split; [|split].
    + intros i v H'. apply (T i v). eapply remove_id_in. exact H'.
    + intros i v H'. apply in_app_or in H'. destruct H' as [H'|[H'|[]]]; [eauto|].
      inversion H'; subst. exact L.
    + intros q H'. apply in_app_or in H'. destruct H' as [H'|[H'|[]]]; [eauto|].
      inversion H'; subst. exact L.
  - (* SearchSettles *)
    simpl. unfold App.search_settles. destruct (App.find_id id _); simpl; [|auto].
    destruct (match r with App.SearchRejected => None | App.SearchJson b => App.ranked s b end);
      simpl; (split; [exact T|split; [|exact N]]);
      intros i v H'; apply (S i v); eapply remove_id_in; exact H'.
  - (* AnalyzeButton *)
    simpl. destruct (App.find_id id (Ui.popups st)); simpl; [|auto].
    split; [exact T|split; [exact S|]].
    intros q H'. apply in_app_or in H'. destruct H' as [H'|[H'|[]]]; [eauto|discriminate H'].
  - (* AnalysisSettles *)
    simpl. unfold App.analysis_settles. destruct (App.find_id id _); simpl; [|auto].
    destruct r; simpl; auto.
Qed.

(** X18: every lookup the search box schedules or sends, in every state the page
    reaches, has a query of three characters or more; shorter input never
    reaches the geocoder. *)
Theorem lookups_have_three_characters (evs : list Ui.Event) :
  long_queries (Ui.app (Ui.run publish lookup parseFloat accepts Ui.initial evs)).
Proof.
  apply (run_keeps (fun st => long_queries (Ui.app st))); [apply step_long_queries|].
  repeat split; intros; contradiction.
Qed.

(** *** The suggestions *)

Lemma ranked_named (val : string) (body : App.SearchBody) (rk : list App.Suggestion) :
  App.ranked val body = Some rk ->
  List.length rk <= 5
  /\ forall sug, In sug rk -> exists name, App.display_name (App.item sug) = Some name.
Proof.
  unfold App.ranked. destruct body as [|l].
  - intros E. injection E as <-. split; [simpl; lia|intros sug []].
  - destruct (App.map_rank val l) as [r0|] eqn:E; [|discriminate].
    intros H. replace rk with (firstn 5 (App.sort_desc r0)) by congruence.
    split; [apply firstn_le_length|]. intros sug Hs.
    apply firstn_in, sort_desc_in in Hs.
    rewrite (map_rank_scored val l r0 E) in Hs. apply in_map_iff in Hs.
    destruct Hs as (it & <- & Hi). simpl.
    destruct (App.display_name it) as [name|] eqn:D; [exists name; reflexivity|].
    assert (X : App.map_rank val l = None) by (apply map_rank_throws; exists it; auto).
    congruence.
Qed.

Lemma step_named (st : Ui.State) (ev : Ui.Event) :
  named_suggestions (Ui.app st) ->
  named_suggestions (Ui.app (Ui.step publish lookup parseFloat accepts st ev)).
Proof.
  unfold named_suggestions. intros (L & N).
  destruct ev;
    try (quiet_event st; fail).
  - (* AddressInput *)
    simpl. unfold App.handleAddressChange. destruct (String.length val <? 3)%nat; simpl; auto.
  - (* TimerFires *)
    simpl. unfold App.timer_fires. destruct (App.find_id id _); simpl; auto.
  - (* SearchSettles *)
    simpl. unfold App.search_settles. destruct (App.find_id id _) as [val|]; simpl; [|auto].
    destruct (match r with App.SearchRejected => None | App.SearchJson b => App.ranked val b end)
      as [rk|] eqn:E; simpl.
    + destruct r as [|body]; [discriminate E|]. apply (ranked_named val body rk E).
    + split; [lia|intros sug []].
  - (* AnalysisSettles *)
    simpl. unfold App.analysis_settles. destruct (App.find_id id _); simpl; [|auto].
    destruct r; simpl; auto.
Qed.

(** X19: in every state the page reaches there are at most five suggestions and
    each has a [display_name], so that the dropdown, which splits it, and
    [selectSuggestion] never read a name that is not there. *)
Theorem suggestions_have_names (evs : list Ui.Event) :
  named_suggestions (Ui.app (Ui.run publish lookup parseFloat accepts Ui.initial evs)).
Proof.
  apply (run_keeps (fun st => named_suggestions (Ui.app st))); [apply step_named|].
  split; [simpl; lia|intros sug []].
Qed.

(** *** What is analysed *)

Lemma step_from_clicks (st : Ui.State) (ev : Ui.Event) :
  from_clicks publish lookup st ->
  from_clicks publish lookup (Ui.step publish lookup parseFloat accepts st ev).
Proof.
  unfold from_clicks. intros (P & A & F).
  destruct ev;
    try (quiet_event st; fail).
  - (* AddressInput *)
    simpl. unfold App.handleAddressChange. destruct (String.length val <? 3)%nat; simpl; auto.
  - (* TimerFires *)
    simpl. unfold App.timer_fires. destruct (App.find_id id _); simpl; auto.
  - (* SearchSettles *)
    simpl. unfold App.search_settles. destruct (App.find_id id _); simpl; [|auto].
    destruct (match r with App.SearchRejected => None | App.SearchJson b => App.ranked s b end);
      simpl; auto.
  - (* MapClick *)
    simpl. destruct (Ui.clickable st); [|auto]. unfold Ui.handleMapClick.
    destruct (Ui.map_current st); simpl; [|auto].
    destruct features as [|props fs]; simpl; [auto|].
    split; [|auto]. intros i p H. apply in_app_or in H. destruct H as [H|[H|[]]].
    + apply (P i p). destruct (Ui.popup_current st); [eapply remove_id_in|]; exact H.
    + inversion H; subst. split; reflexivity.
  - (* PopupClosed *)
    simpl. split; [|auto]. intros i p H. apply (P i p). eapply remove_id_in. exact H.
  - (* AnalyzeButton *)
    simpl. destruct (App.find_id id (Ui.popups st)) as [p|] eqn:E; simpl; [|auto].
    apply find_id_in in E. split; [exact P|split; [|exact F]].
    intros i c H. apply in_app_or in H. destruct H as [H|[H|[]]]; [eauto|].
    inversion H; subst. apply (P id p E).
  - (* AnalysisSettles *)
    simpl. unfold App.analysis_settles.
    destruct (App.find_id id _) as [c|] eqn:E; simpl; [|auto].
    apply find_id_in in E.
    destruct r as [f|data]; simpl; (split; [exact P|split]);
      try (intros i c' H; apply (A i c'); eapply remove_id_in; exact H);
      try exact F.
    intros fd H. injection H as <-. exists c, data. split; [eauto|reflexivity].
Qed.

(** X20: whatever happens on the page, the record in the drawer was published
    for a click on a field of the map, under the name [CROP_LOOKUP] gives
    the field's crop code (or "Unknown"), which is also the title the popup
    showed; the same holds of every analysis in flight. *)
Theorem analysis_is_of_a_clicked_field (evs : list Ui.Event) :
  from_clicks publish lookup (Ui.run publish lookup parseFloat accepts Ui.initial evs).
Proof.
  apply (run_keeps (from_clicks publish lookup)); [apply step_from_clicks|].
  repeat split; try (intros; contradiction). intros fd H. discriminate H.
Qed.

End Page.

(** A visit that ends with a record in the drawer. *)
Example one_analysis_publishes :
  App.fieldData
    (Ui.app (Ui.run Revised.publish RevisedView.CROP_LOOKUP (fun _ => 0%float)
               (fun _ _ => true) Ui.initial
               (one_analysis no_props 42%float (-93)%float empty_response)))
  = Some (Revised.publish 42%float (-93)%float "Corn" no_props empty_response).
Proof. vm_compute. reflexivity. Qed.

(** ** The score and the issues *)

Lemma checks_penalties (v1 v2 v3 : option JS.number) :
  let h := close_tally (check_nitrogen v3 (check_soc v2 (check_ph v1 (100%float, [], [])))) in
  score h = score_of_issues (issues h)
  /\ List.length (strengths h) + List.length (issues h)
     = 2 + (if JS.lt v3 2 then 1 else 0).
Proof.
  unfold check_nitrogen, check_soc, check_ph, JS.lt.
  destruct v1 as [p|], v2 as [c|], v3 as [n|];
    repeat match goal with
           | |- context [if ?b then _ else _] => destruct b
           end;
    split; vm_compute; reflexivity.
Qed.

(** X21: the score can be read off the issues listed with it, in both copies:
    it is 100 less 20 for the issue of high severity and 15 for each issue
    of medium severity; and pH and organic matter each come up once, as a
    strength or as an issue, nitrogen only as an issue. *)
Theorem score_follows_issues (s : Soil) :
  (forall h, Legacy.getHealthScore (Some s) = Some h ->
     score h = score_of_issues (issues h)
     /\ List.length (strengths h) + List.length (issues h)
        = 2 + (if JS.lt (nitrogen s) 2 then 1 else 0))
  /\ (forall h, Revised.getHealthScore (Some s) = Some h ->
     score h = score_of_issues (issues h)
     /\ List.length (strengths h) + List.length (issues h)
        = 2 + (if (JS.or_default (nitrogen s) 2.5 <? 2)%float then 1 else 0)).
Proof.
  split; intros h E; injection E as <-.
  - apply checks_penalties.
  - apply (checks_penalties (Some (JS.or_default (ph s) 6.5))
             (Some (JS.or_default (soc s) 20)) (Some (JS.or_default (nitrogen s) 2.5))).
Qed.

Lemma score_follows_issues_witness :
  score (close_tally (Legacy.tally soil_n15)) = score_of_issues (issues (close_tally (Legacy.tally soil_n15)))
  /\ List.length (strengths (close_tally (Legacy.tally soil_n15)))
     + List.length (issues (close_tally (Legacy.tally soil_n15)))
     = 2 + (if JS.lt (nitrogen soil_n15) 2 then 1 else 0).
Proof.
  apply (proj1 (score_follows_issues soil_n15) (close_tally (Legacy.tally soil_n15)) eq_refl).
Defined.

(** ** The two copies on a full sample *)

Lemma positive_truthy (x : JS.number) :
  (0 <? x)%float = true -> JS.ToBoolean x = true /\ above_zero x.
Proof.
  intros L. assert (A : above_zero x).
  { rewrite ltb_spec in L. change (Prim2SF 0) with (S754_zero false) in L.
    unfold above_zero. destruct (Prim2SF x) as [s|s| |s m e]; simpl in L.
    - discriminate.
    - destruct s; [discriminate|]. right. reflexivity.
    - discriminate.
    - destruct s; [discriminate|]. left. eauto. }
  split; [|exact A].
  unfold JS.ToBoolean, is_zero, is_nan. change PrimFloat.zero with 0%float.
  rewrite !eqb_spec. change (Prim2SF 0) with (S754_zero false).
  destruct A as [(m & e & ->)| ->]; simpl; [|reflexivity].
  unfold SFeqb, SFcompare. rewrite Z.compare_refl, Pos.compare_refl. reflexivity.
Qed.

Lemma positive_or_default (v : option JS.number) (d : JS.number) :
  is_positive v -> exists x, v = Some x /\ JS.or_default v d = x
                          /\ (0 <? x)%float = true /\ above_zero x /\ JS.not v = false.
Proof.
  intros (x & -> & L). destruct (positive_truthy x L) as (T & A).
  exists x. unfold JS.or_default, JS.not. rewrite T. auto.
Qed.

(** X22: on a response whose soil sample has its six fields, with pH, organic
    carbon, nitrogen, sand and clay above zero, the two copies publish the
    same record: the defaults and guards of the revised copy do not come
    into play there. *)
Theorem copies_agree_on_full_samples (lat lon : JS.number) (name : string) (props : Props)
    (s : Soil) (h : option History) (r : option (list Recommendation)) :
  positive_sample s ->
  Revised.publish lat lon name props (response_with s h r)
  = Legacy.publish lat lon name props (response_with s h r).
Proof.
  intros (Pp & Pc & Pn & Ps & Pl & Si).
  destruct (positive_or_default _ 6.5%float Pp) as (p & Ep & Dp & Lp & _ & _).
  destruct (positive_or_default _ 20%float Pc) as (c & Ec & Dc & _ & _ & _).
  destruct (positive_or_default _ 2.5%float Pn) as (n & En & Dn & _ & _ & _).
  destruct (positive_or_default _ 0%float Ps) as (sa & Es & Ds & _ & As & Ns).
  destruct (positive_or_default _ 0%float Pl) as (cl & El & Dl & _ & Al & Nl).
  assert (N : Revised.normalize (Some s) = s).
  { destruct (silt s) as [x|] eqn:E; [|congruence].
    apply (revised_normalize_keeps s) with (x := x). exact E. }
  unfold Revised.publish, Legacy.publish, response_with. cbn [data_soil data_history data_recommendations].
  rewrite N. f_equal.
  - unfold Revised.getTextureClass, Legacy.getTextureClass.
    rewrite Ds, Dl, Ns, Nl, (add_above_zero sa cl As (or_introl Al)).
    rewrite Es, El. reflexivity.
  - unfold Revised.getHealthScore, Legacy.getHealthScore, Revised.tally, Legacy.tally.
    rewrite Dp, Dc, Dn, Ep, Ec, En. reflexivity.
  - unfold Revised.getFertilizerPlan, Legacy.getFertilizerPlan.
    rewrite Dp, Dn, Ep, En, Lp, andb_true_r. reflexivity.
Qed.

Lemma copies_agree_on_full_samples_witness :
  Revised.publish 42%float (-93)%float "Corn" no_props (response_with soil_loam None None)
  = Legacy.publish 42%float (-93)%float "Corn" no_props (response_with soil_loam None None).
Proof.
  apply (copies_agree_on_full_samples 42%float (-93)%float "Corn" no_props soil_loam None None).
  repeat split; try (eexists; split; reflexivity). discriminate.
Defined.

(** ** The lines of a suggestion *)

Lemma split_comma_cons (s : string) : exists p ps, View.split_comma s = p :: ps.
Proof.
  destruct s as [|c s]; simpl; [eauto|].
  destruct (Ascii.eqb c ","); [eauto|]. destruct (View.split_comma s); eauto.
Qed.

Lemma join_comma_cons (a b : string) (l : list string) :
  View.join_comma (a :: b :: l) = a ++ "," ++ View.join_comma (b :: l).
Proof. reflexivity. Qed.

Lemma join_split_comma (s : string) : View.join_comma (View.split_comma s) = s.
Proof.
  induction s as [|c s IH]; [reflexivity|]. simpl.
  destruct (split_comma_cons s) as (p & ps & E). rewrite E in IH |- *.
  destruct (Ascii.eqb_spec c ",") as [->|N].
  - rewrite join_comma_cons, IH. reflexivity.
  - destruct ps as [|q ps].
    + simpl in IH |- *. rewrite IH. reflexivity.
    + rewrite join_comma_cons in IH |- *. rewrite <- IH. reflexivity.
Qed.

Lemma primary_label_no_comma (s : string) : has_comma (View.primary_label s) = false.
Proof.
  unfold View.primary_label. induction s as [|c s IH]; [reflexivity|]. simpl.
  destruct (Ascii.eqb c ",") eqn:E; [reflexivity|].
  destruct (View.split_comma s) as [|p ps]; simpl; rewrite E; [reflexivity|exact IH].
Qed.

(** X23: the lines of a suggestion in the dropdown: the first is the name up to
    its first comma, which is also what [selectSuggestion] puts in the search
    box, the second is the next two of the name's comma-separated pieces,
    and the pieces joined by commas give the name back. *)
Theorem suggestion_lines (name : string) :
  exists rest,
    View.split_comma name = View.primary_label name :: rest
    /\ has_comma (View.primary_label name) = false
    /\ View.join_comma (View.primary_label name :: rest) = name
    /\ View.secondary_label name = View.join_comma (firstn 2 rest).
Proof.
  destruct (split_comma_cons name) as (p & ps & E). exists ps.
  assert (P : View.primary_label name = p) by (unfold View.primary_label; rewrite E; reflexivity).
  rewrite P. split; [exact E|]. split; [rewrite <- P; apply primary_label_no_comma|].
  split; [rewrite <- E; apply join_split_comma|].
  unfold View.secondary_label. rewrite E. reflexivity.
Qed.

(** ** The resource loader *)

Lemma found_app (x : string) (l1 l2 : list string) :
  Loader.found x (l1 ++ l2) = Loader.found x l1 || Loader.found x l2.
Proof. apply existsb_app. Qed.

Lemma found_self (x : string) (l : list string) : Loader.found x (l ++ [x]) = true.
Proof. rewrite found_app. simpl. rewrite String.eqb_refl, orb_true_r. reflexivity. Qed.

Lemma loadStyles_found (href : string) (doc : Loader.Document) :
  Loader.found href (Loader.links (Loader.loadStyles href doc)) = true
  /\ Loader.scripts (Loader.loadStyles href doc) = Loader.scripts doc.
Proof.
  unfold Loader.loadStyles. destruct (Loader.found href (Loader.links doc)) eqn:E; simpl.
  - auto.
  - split; [apply found_self|reflexivity].
Qed.

Lemma loadScript_found (src : string) (doc : Loader.Document) :
  Loader.found src (Loader.scripts (Loader.loadScript src doc)) = true
  /\ Loader.links (Loader.loadScript src doc) = Loader.links doc
  /\ (forall x, Loader.found x (Loader.scripts doc) = true ->
        Loader.found x (Loader.scripts (Loader.loadScript src doc)) = true).
Proof.
  unfold Loader.loadScript. destruct (Loader.found src (Loader.scripts doc)) eqn:E; simpl.
  - auto.
  - split; [apply found_self|]. split; [reflexivity|].
    intros x H. rewrite found_app, H. reflexivity.
Qed.

Lemma load_requests (doc : Loader.Document) :
  resources_requested (Loader.loadMapResources false doc).
Proof.
  unfold resources_requested, Loader.loadMapResources.
  destruct (loadStyles_found Loader.MAPLIBRE_CSS doc) as (C & _).
  destruct (loadScript_found Loader.MAPLIBRE_JS (Loader.loadStyles Loader.MAPLIBRE_CSS doc))
    as (M & LM & _).
  destruct (loadScript_found Loader.PMTILES_JS
              (Loader.loadScript Loader.MAPLIBRE_JS (Loader.loadStyles Loader.MAPLIBRE_CSS doc)))
    as (P & LP & K).
  split; [rewrite LP, LM; exact C|]. split; [apply K; exact M|exact P].
Qed.

Lemma load_again (ready : bool) (doc : Loader.Document) :
  resources_requested doc -> Loader.loadMapResources ready doc = doc.
Proof.
  intros (C & M & P). unfold Loader.loadMapResources. destruct ready; [reflexivity|].
  unfold Loader.loadStyles. rewrite C. unfold Loader.loadScript at 2. rewrite M.
  unfold Loader.loadScript. rewrite P. reflexivity.
Qed.

(** X24: [loadMapResources] adds its tags once: after a call made before the
    libraries are there, the document has the stylesheet and the two
    scripts, and no later call, however many and whatever has loaded by
    then, adds a tag. *)
Theorem loader_adds_tags_once (doc : Loader.Document) (readies : list bool) :
  resources_requested (Loader.loadMapResources false doc)
  /\ Loader.calls readies (Loader.loadMapResources false doc)
     = Loader.loadMapResources false doc.
Proof.
  split; [apply load_requests|].
  unfold Loader.calls. induction readies as [|ready readies IH]; [reflexivity|].
  cbn [fold_left]. rewrite (load_again ready _ (load_requests doc)). exact IH.
Qed.
